(** * Dynamic Preview Editors: link-mode resolver, sidebar preview manager,
      settings loading and popover spawning

    A shallow embedding of [src/main.ts] and [src/settings/settings.ts].

    The plugin runs inside a host application.  What it asks of the host is
    gathered in the record [Host]; what it tells the host is appended, call
    by call, to the [history] of the run-time state.  Closures handed to
    [setTimeout] and the rest of [openFileInSidebar] after its one [await]
    are kept in that state too, defunctionalised, until the event loop runs
    them.

    Part I holds the definitions, Part II the properties. *)

From Stdlib Require Import ZArith String Ascii List Bool Lia QArith Qround.
From stdpp Require Import base option list strings gmap.
Import ListNotations.

Local Open Scope string_scope.
Local Open Scope Z_scope.
Local Open Scope list_scope.

(** * Part I: the program *)

(** ** JavaScript string primitives used by the plugin

    Strings are byte sequences here and UTF-16 sequences in JavaScript; the
    plugin only ever looks for the ASCII characters number sign, exclamation
    mark, opening bracket and caret, for which both views agree. *)
Module JS.

(** [s.startsWith(pre)] *)
Fixpoint startsWith (pre s : string) : bool :=
  match pre with
  | EmptyString => true
  | String a pre' =>
      match s with
      | EmptyString => false
      | String b s' => if Ascii.eqb a b then startsWith pre' s' else false
      end
  end.

(** [s.includes(c)] for a one-character needle *)
Fixpoint includes (c : ascii) (s : string) : bool :=
  match s with
  | EmptyString => false
  | String d s' => if Ascii.eqb d c then true else includes c s'
  end.

(** [s.split(sep)] for a one-character separator *)
Fixpoint split (sep : ascii) (s : string) : list string :=
  match s with
  | EmptyString => [EmptyString]
  | String d s' =>
      if Ascii.eqb d sep then EmptyString :: split sep s'
      else match split sep s' with
           | x :: xs => String d x :: xs
           | [] => [String d EmptyString]
           end
  end.

(** Truthiness of a string: the empty string is the only falsy one. *)
Definition truthy (s : string) : bool :=
  match s with EmptyString => false | String _ _ => true end.

(** [s[0] === c] *)
Definition firstIs (c : ascii) (s : string) : bool :=
  match s with EmptyString => false | String d _ => Ascii.eqb d c end.

End JS.

(** ** Values and handles exchanged with the host *)

Definition Leaf := nat.
Definition Element := nat.
Definition CachedMetadata := nat.

Record TFile := { file_path : string }.

Record Loc := { loc_line : Z; loc_col : Z; loc_offset : Z }.

(** What [resolveSubpath] returns when it finds the anchor. *)
Record SubpathResult := { sr_start : Loc; sr_end : option Loc }.

(** What [parseLinktext] returns. *)
Record ParsedLink := { link_path : string; link_subpath : string }.

(** Property values of an [EphemeralState] object. *)
Inductive JVal :=
| JUndefined
| JNull
| JBool (b : bool)
| JNum (n : Z)
| JStr (s : string)
| JLoc (l : Loc).

(** An [EphemeralState] is a plain object: a finite map from keys to values. *)
Abbreviation EphemeralState := (gmap string JVal).

Record ViewState := {
  vs_type : string;
  vs_file : string;
  vs_mode : string;
  vs_active : bool
}.

(** The arguments of the patched [onLinkHover]. *)
Record HoverArgs := {
  parent : nat;
  targetEl : option Element;
  linkText : string;
  path : string;
  state : option EphemeralState;
  args : list JVal
}.

(** ** Settings ([src/settings/settings.ts])

    The fields have the primitive types of the interface
    [HoverEditorSettings].  The union types of the modes and of the sidebar
    position exist at compile time only: at run time such a field holds
    whatever string was stored.  Numbers are integers here. *)
Record HoverEditorSettings := {
  defaultMode : string;
  autoPin : string;
  triggerDelay : Z;
  closeDelay : Z;
  autoFocus : bool;
  rollDown : bool;
  snapToEdges : bool;
  initialHeight : string;
  initialWidth : string;
  showViewHeader : bool;
  imageZoom : bool;
  footnotes : string;
  headings : string;
  blocks : string;
  hoverEmbeds : string;
  sidebarAutoFocus : bool;
  sidebarPosition : string;
  sidebarAutoReveal : bool;
  regularLinks : string
}.

Definition DEFAULT_SETTINGS : HoverEditorSettings := {|
  regularLinks := "sidebar";
  defaultMode := "match";
  autoPin := "onMove";
  triggerDelay := 300;
  closeDelay := 600;
  autoFocus := true;
  rollDown := false;
  snapToEdges := false;
  initialHeight := "340px";
  initialWidth := "400px";
  showViewHeader := false;
  imageZoom := true;
  footnotes := "native";
  headings := "sidebar";
  blocks := "floating";
  hoverEmbeds := "sidebar";
  sidebarAutoFocus := false;
  sidebarPosition := "right";
  sidebarAutoReveal := true
|}.

(** The record [loadData()] resolves to: every key of the settings is either
    absent or present with a value of the field's primitive type.  Keys that
    are no settings are copied by [Object.assign] and never read; they are
    left out. *)
Record StoredSettings := {
  s_defaultMode : option string;
  s_autoPin : option string;
  s_triggerDelay : option Z;
  s_closeDelay : option Z;
  s_autoFocus : option bool;
  s_rollDown : option bool;
  s_snapToEdges : option bool;
  s_initialHeight : option string;
  s_initialWidth : option string;
  s_showViewHeader : option bool;
  s_imageZoom : option bool;
  s_footnotes : option string;
  s_headings : option string;
  s_blocks : option string;
  s_hoverEmbeds : option string;
  s_sidebarAutoFocus : option bool;
  s_sidebarPosition : option string;
  s_sidebarAutoReveal : option bool;
  s_regularLinks : option string
}.

(** A stored record with no key at all. *)
Definition emptyStored : StoredSettings :=
  Build_StoredSettings None None None None None None None None None None
                       None None None None None None None None None.

(** One key of [Object.assign(target, source)]: the source's value when the
    source has the key, the target's value otherwise. *)
Definition assignKey {A : Type} (target : A) (source : option A) : A :=
  match source with
  | Some v => v
  | None => target
  end.

(** [Object.assign({}, DEFAULT_SETTINGS, await this.loadData())].
    [loadData()] resolves to [null] when nothing was ever saved, and
    [Object.assign] skips a null source. *)
Definition loadSettings (data : option StoredSettings) : HoverEditorSettings :=
  let d := match data with Some d => d | None => emptyStored end in
  let D := DEFAULT_SETTINGS in
  {| defaultMode := assignKey (defaultMode D) (s_defaultMode d);
     autoPin := assignKey (autoPin D) (s_autoPin d);
     triggerDelay := assignKey (triggerDelay D) (s_triggerDelay d);
     closeDelay := assignKey (closeDelay D) (s_closeDelay d);
     autoFocus := assignKey (autoFocus D) (s_autoFocus d);
     rollDown := assignKey (rollDown D) (s_rollDown d);
     snapToEdges := assignKey (snapToEdges D) (s_snapToEdges d);
     initialHeight := assignKey (initialHeight D) (s_initialHeight d);
     initialWidth := assignKey (initialWidth D) (s_initialWidth d);
     showViewHeader := assignKey (showViewHeader D) (s_showViewHeader d);
     imageZoom := assignKey (imageZoom D) (s_imageZoom d);
     footnotes := assignKey (footnotes D) (s_footnotes d);
     headings := assignKey (headings D) (s_headings d);
     blocks := assignKey (blocks D) (s_blocks d);
     hoverEmbeds := assignKey (hoverEmbeds D) (s_hoverEmbeds d);
     sidebarAutoFocus := assignKey (sidebarAutoFocus D) (s_sidebarAutoFocus d);
     sidebarPosition := assignKey (sidebarPosition D) (s_sidebarPosition d);
     sidebarAutoReveal := assignKey (sidebarAutoReveal D) (s_sidebarAutoReveal d);
     regularLinks := assignKey (regularLinks D) (s_regularLinks d) |}.

(** The keys of the settings object, to speak about all of them at once. *)
Inductive SettingsKey :=
| K_defaultMode | K_autoPin | K_triggerDelay | K_closeDelay | K_autoFocus
| K_rollDown | K_snapToEdges | K_initialHeight | K_initialWidth
| K_showViewHeader | K_imageZoom | K_footnotes | K_headings | K_blocks
| K_hoverEmbeds | K_sidebarAutoFocus | K_sidebarPosition
| K_sidebarAutoReveal | K_regularLinks.

(** [settings[k]] *)
Definition settingsGet (s : HoverEditorSettings) (k : SettingsKey) : JVal :=
  match k with
  | K_defaultMode => JStr (defaultMode s)
  | K_autoPin => JStr (autoPin s)
  | K_triggerDelay => JNum (triggerDelay s)
  | K_closeDelay => JNum (closeDelay s)
  | K_autoFocus => JBool (autoFocus s)
  | K_rollDown => JBool (rollDown s)
  | K_snapToEdges => JBool (snapToEdges s)
  | K_initialHeight => JStr (initialHeight s)
  | K_initialWidth => JStr (initialWidth s)
  | K_showViewHeader => JBool (showViewHeader s)
  | K_imageZoom => JBool (imageZoom s)
  | K_footnotes => JStr (footnotes s)
  | K_headings => JStr (headings s)
  | K_blocks => JStr (blocks s)
  | K_hoverEmbeds => JStr (hoverEmbeds s)
  | K_sidebarAutoFocus => JBool (sidebarAutoFocus s)
  | K_sidebarPosition => JStr (sidebarPosition s)
  | K_sidebarAutoReveal => JBool (sidebarAutoReveal s)
  | K_regularLinks => JStr (regularLinks s)
  end.

(** [data[k]], [None] when the stored record has no such key *)
Definition storedGet (d : StoredSettings) (k : SettingsKey) : option JVal :=
  match k with
  | K_defaultMode => JStr <$> s_defaultMode d
  | K_autoPin => JStr <$> s_autoPin d
  | K_triggerDelay => JNum <$> s_triggerDelay d
  | K_closeDelay => JNum <$> s_closeDelay d
  | K_autoFocus => JBool <$> s_autoFocus d
  | K_rollDown => JBool <$> s_rollDown d
  | K_snapToEdges => JBool <$> s_snapToEdges d
  | K_initialHeight => JStr <$> s_initialHeight d
  | K_initialWidth => JStr <$> s_initialWidth d
  | K_showViewHeader => JBool <$> s_showViewHeader d
  | K_imageZoom => JBool <$> s_imageZoom d
  | K_footnotes => JStr <$> s_footnotes d
  | K_headings => JStr <$> s_headings d
  | K_blocks => JStr <$> s_blocks d
  | K_hoverEmbeds => JStr <$> s_hoverEmbeds d
  | K_sidebarAutoFocus => JBool <$> s_sidebarAutoFocus d
  | K_sidebarPosition => JStr <$> s_sidebarPosition d
  | K_sidebarAutoReveal => JBool <$> s_sidebarAutoReveal d
  | K_regularLinks => JStr <$> s_regularLinks d
  end.

(** The keys whose declared type is the enumeration of modes. *)
Definition isModeKey (k : SettingsKey) : bool :=
  match k with
  | K_footnotes | K_headings | K_blocks | K_hoverEmbeds | K_regularLinks => true
  | _ => false
  end.

(** The three modes of that enumeration. *)
Definition isMode (v : JVal) : bool :=
  match v with
  | JStr s =>
      String.eqb s "native" || String.eqb s "floating" || String.eqb s "sidebar"
  | _ => false
  end.

(** ** What the plugin tells the host, and what it keeps for later *)

Inductive Side := LeftSide | RightSide.

(** What happens, in order: the calls that leave the plugin and, last, the
    changes the host makes on its own. *)
Inductive Event :=
| NativeLinkHover (a : HoverArgs)
    (* old.call(this, parent, targetEl, linkText, path, state, ...args) *)
| FloatingLinkHover (a : HoverArgs)
    (* onLinkHover(plugin, parent, targetEl, linkText, path, state, ...args) *)
| GetSideLeaf (side : Side) (split : bool)
    (* workspace.getLeftLeaf(split), workspace.getRightLeaf(split) *)
| SetViewState (leaf : Leaf) (vs : ViewState)
| SetEphemeralState (leaf : Leaf) (eState : EphemeralState)
| RevealLeaf (leaf : Leaf)
| SetActiveLeaf (leaf : Leaf) (focus : bool)
| NewHoverEditor (popover : nat) (parentLeaf : option Leaf)
                 (initiatingEl : Element) (onShowCallback : option nat)
| TogglePin (popover : nat) (value : bool)
| AttachLeaf (popover : nat)
| HostChanged (what : nat).

(** Closures handed to [setTimeout]. *)
Inductive Task :=
| HandleHover (mode : string) (a : HoverArgs)
| ApplyEphemeral (leaf : Leaf) (eState : EphemeralState).

(** The rest of [openFileInSidebar] after [await leaf.setViewState(...)]. *)
Inductive Continuation :=
| SidebarLoaded (leaf : Leaf) (eState : EphemeralState).

(** The plugin instance ([settings], [currentSidebarLeaf]) and the part of
    the JavaScript run time it uses. *)
Record State := {
  settings : HoverEditorSettings;
  currentSidebarLeaf : option Leaf;
  history : list Event;
  timers : list (Z * Task);
  awaiting : list Continuation;
  now : Z
}.

(** ** The host

    Answers of the host's collaborators.  An answer may depend on everything
    that happened so far, so the stateful ones take the history.  Host calls
    do not raise exceptions. *)
Record Host := {
  parseLinktext : string -> ParsedLink;
  resolveSubpath : CachedMetadata -> string -> option SubpathResult;
  getFirstLinkpathDest : list Event -> string -> string -> option TFile;
  getFileCache : list Event -> TFile -> option CachedMetadata;
  leafDisposed : list Event -> Leaf -> bool;
  getLeftLeaf : list Event -> bool -> option Leaf;
  getRightLeaf : list Event -> bool -> option Leaf;
  activeViewMode : list Event -> option string;
  activeLeaf : list Event -> option (Leaf * Element);
  attachedLeaf : list Event -> nat -> Leaf
}.

(** ** A small monad: state, and the one exception the code can raise *)

Inductive Outcome (A : Type) :=
| Return (a : A)
| TypeError.
Arguments Return {A} a.
Arguments TypeError {A}.

Definition M (A : Type) : Type := State -> Outcome A * State.

Definition ret {A : Type} (a : A) : M A := fun st => (Return a, st).

Definition bind {A B : Type} (m : M A) (k : A -> M B) : M B :=
  fun st =>
    match m st with
    | (Return a, st') => k a st'
    | (TypeError, st') => (TypeError, st')
    end.

(** Calling a method of [null]. *)
Definition throw {A : Type} : M A := fun st => (TypeError, st).

Declare Scope plugin_scope.
Delimit Scope plugin_scope with plugin.
Notation "'let*' x ':=' m 'in' k" := (bind m (fun x => k))
  (at level 10, x name, m at level 100, k at level 200) : plugin_scope.
Notation "m ';;' k" := (bind m (fun _ => k))
  (at level 100, k at level 200, right associativity) : plugin_scope.
Local Open Scope plugin_scope.

(** Reading the plugin and the run time. *)
Definition gets {A : Type} (f : State -> A) : M A :=
  fun st => (Return (f st), st).

(** An outbound call. *)
Definition call (e : Event) : M unit :=
  fun st =>
    (Return tt,
     {| settings := settings st; currentSidebarLeaf := currentSidebarLeaf st;
        history := history st ++ [e]; timers := timers st;
        awaiting := awaiting st; now := now st |}).

(** [this.currentSidebarLeaf = l] *)
Definition setCurrentSidebarLeaf (l : option Leaf) : M unit :=
  fun st =>
    (Return tt,
     {| settings := settings st; currentSidebarLeaf := l;
        history := history st; timers := timers st;
        awaiting := awaiting st; now := now st |}).

(** [setTimeout(task, delay)]: the task becomes due [delay] ms from now. *)
Definition setTimeout (task : Task) (delay : Z) : M unit :=
  fun st =>
    (Return tt,
     {| settings := settings st; currentSidebarLeaf := currentSidebarLeaf st;
        history := history st; timers := timers st ++ [(now st + delay, task)];
        awaiting := awaiting st; now := now st |}).

(** [await promise; k]: the function is suspended, [k] runs later. *)
Definition await (k : Continuation) : M unit :=
  fun st =>
    (Return tt,
     {| settings := settings st; currentSidebarLeaf := currentSidebarLeaf st;
        history := history st; timers := timers st;
        awaiting := awaiting st ++ [k]; now := now st |}).

(** [(async () => { await m })()]: [m] runs up to its first [await]; an
    exception rejects a promise nobody looks at. *)
Definition detached (m : M unit) : M unit :=
  fun st => (Return tt, snd (m st)).

(** ** The plugin ([src/main.ts]) *)
Section Plugin.

Variable host : Host.

(** *** Link-mode resolver: the head of the patched [onLinkHover] *)

(** The value the patched [onLinkHover] gives its variable [mode]. *)
Definition linkMode (s : HoverEditorSettings) (linkText : string) : string :=
  let subpath := link_subpath (parseLinktext host linkText) in
  if JS.truthy subpath && JS.firstIs "#" subpath then
    if JS.startsWith "#[^" subpath then footnotes s
    else if JS.startsWith "#^" subpath then blocks s
    else headings s
  else if JS.startsWith "!" linkText then hoverEmbeds s
  else regularLinks s.

(** The five link types of the settings panel. *)
Inductive LinkClassification := Regular | Heading | Block | Footnote | Embed.

(** The branch [linkMode] takes: the same tests, with the name of the branch
    in place of the setting it reads. *)
Definition classify (linkText : string) : LinkClassification :=
  let subpath := link_subpath (parseLinktext host linkText) in
  if JS.truthy subpath && JS.firstIs "#" subpath then
    if JS.startsWith "#[^" subpath then Footnote
    else if JS.startsWith "#^" subpath then Block
    else Heading
  else if JS.startsWith "!" linkText then Embed
  else Regular.

(** The setting read in each branch. *)
Definition modeSetting (s : HoverEditorSettings) (c : LinkClassification)
  : string :=
  match c with
  | Regular => regularLinks s
  | Heading => headings s
  | Block => blocks s
  | Footnote => footnotes s
  | Embed => hoverEmbeds s
  end.

(** *** Sidebar preview manager *)

(** The object literal with [base]'s properties first and then a spread of
    [extra], which may be [undefined]: [extra]'s properties win. *)
Definition spread (base : EphemeralState) (extra : option EphemeralState)
  : EphemeralState :=
  match extra with
  | Some o => o ∪ base
  | None => base
  end.

Definition locOrNull (l : option Loc) : JVal :=
  match l with Some l => JLoc l | None => JNull end.

Definition buildEphemeralState (tr : list Event) (file : TFile)
    (linktext : string) (oldState : option EphemeralState) : EphemeralState :=
  let cache := getFileCache host tr file in
  let subpath :=
    if JS.includes "#" linktext
    then List.nth 1 (JS.split "#" linktext) EmptyString
    else EmptyString in
  let resolved :=
    match cache with
    | Some c => resolveSubpath host c subpath
    | None => None
    end in
  let eState :=
    spread {[ "subpath" := if JS.truthy subpath then JStr ("#" +:+ subpath)
                           else JUndefined ]} oldState in
  match resolved with
  | Some r =>
      <["endLoc" := locOrNull (sr_end r)]>
        (<["startLoc" := JLoc (sr_start r)]>
           (<["line" := JNum (loc_line (sr_start r))]> eState))
  | None => eState
  end.

Definition getViewMode (tr : list Event) (s : HoverEditorSettings) : string :=
  let defaultMode := defaultMode s in
  if String.eqb defaultMode "match" then
    match activeViewMode host tr with
    | Some m => m
    | None => "preview"
    end
  else defaultMode.

(** The sidebar chosen by [sidebarPosition === "left"]. *)
Definition configuredSide (s : HoverEditorSettings) : Side :=
  if String.eqb (sidebarPosition s) "left" then LeftSide else RightSide.

(** What the host answers to [workspace.getLeftLeaf(split)] or
    [workspace.getRightLeaf(split)] after the events [tr]. *)
Definition sideLeaf (side : Side) (tr : list Event) (split : bool)
  : option Leaf :=
  match side with
  | LeftSide => getLeftLeaf host tr split
  | RightSide => getRightLeaf host tr split
  end.

(** [workspace.getLeftLeaf(split)] or [workspace.getRightLeaf(split)] *)
Definition getLeaf (side : Side) (split : bool) : M (option Leaf) :=
  let* tr := gets history in
  call (GetSideLeaf side split);;
  ret (sideLeaf side tr split).

(** [a ?? b] *)
Definition nullishOr {A : Type} (a b : M (option A)) : M (option A) :=
  let* x := a in
  match x with
  | Some _ => ret x
  | None => b
  end.

(** [openFileInSidebar] up to its [await]. *)
Definition openFileInSidebar (file : TFile) (linkText : string)
    (state : option EphemeralState) : M unit :=
  let* cur := gets currentSidebarLeaf in
  let* tr := gets history in
  (if match cur with
      | None => true
      | Some l => leafDisposed host tr l
      end
   then
     let* s := gets settings in
     let side := configuredSide s in
     let* l := nullishOr (getLeaf side false) (getLeaf side true) in
     setCurrentSidebarLeaf l
   else ret tt);;
  let* leaf := gets currentSidebarLeaf in
  let* tr := gets history in
  let eState := buildEphemeralState tr file linkText state in
  let* s := gets settings in
  let mode := getViewMode tr s in
  match leaf with
  | None => throw
  | Some l =>
      call (SetViewState l {| vs_type := "markdown"; vs_file := file_path file;
                              vs_mode := mode; vs_active := true |});;
      await (SidebarLoaded l eState)
  end.

(** [openFileInSidebar] once [leaf.setViewState(...)] has settled. *)
Definition openFileInSidebar_loaded (leaf : Leaf) (eState : EphemeralState)
  : M unit :=
  setTimeout (ApplyEphemeral leaf eState) 50;;
  let* s := gets settings in
  (if sidebarAutoReveal s then call (RevealLeaf leaf) else ret tt);;
  (if sidebarAutoFocus s then call (SetActiveLeaf leaf true) else ret tt).

(** The closure [openFileInSidebar] hands to [setTimeout]. *)
Definition applyEphemeral (leaf : Leaf) (eState : EphemeralState) : M unit :=
  let* tr := gets history in
  if negb (leafDisposed host tr leaf) then call (SetEphemeralState leaf eState)
  else ret tt.

(** *** Link-mode resolver: dispatch *)

(** The closure [handleHover]; [mode] and the arguments are captured. *)
Definition handleHover (mode : string) (a : HoverArgs) : M unit :=
  let* tr := gets history in
  let file :=
    getFirstLinkpathDest host tr (link_path (parseLinktext host (linkText a)))
                         (path a) in
  match file with
  | None => call (NativeLinkHover a)
  | Some file =>
      if String.eqb mode "sidebar" then
        detached (openFileInSidebar file (linkText a) (state a))
      else call (FloatingLinkHover a)
  end.

(** The patched [onLinkHover]. *)
Definition onLinkHover (a : HoverArgs) : M unit :=
  let* s := gets settings in
  let mode := linkMode s (linkText a) in
  if String.eqb mode "native" then call (NativeLinkHover a)
  else if (0 <? triggerDelay s)%Z then
    setTimeout (HandleHover mode a) (triggerDelay s)
  else handleHover mode a.

(** *** Popovers opened by commands, menus and the quick switcher *)

Definition isNewHoverEditor (e : Event) : bool :=
  match e with NewHoverEditor _ _ _ _ => true | _ => false end.

(** The new popover is numbered by the popovers made before it. *)
Definition spawnPopover (initiatingEl : option Element)
    (onShowCallback : option nat) : M Leaf :=
  let* tr := gets history in
  let parent := activeLeaf host tr in
  let* initiatingEl :=
    match initiatingEl with
    | Some el => ret el
    | None =>
        match parent with
        | Some (_, containerEl) => ret containerEl
        | None => throw
        end
    end in
  let hoverPopover := length (List.filter isNewHoverEditor tr) in
  call (NewHoverEditor hoverPopover (fst <$> parent) initiatingEl onShowCallback);;
  call (TogglePin hoverPopover true);;
  let* tr := gets history in
  call (AttachLeaf hoverPopover);;
  ret (attachedLeaf host tr hoverPopover).

(** *** The event loop *)

Definition runTask (t : Task) : M unit :=
  match t with
  | HandleHover mode a => handleHover mode a
  | ApplyEphemeral leaf eState => applyEphemeral leaf eState
  end.

Definition resume (k : Continuation) : M unit :=
  match k with
  | SidebarLoaded leaf eState => openFileInSidebar_loaded leaf eState
  end.

(** The pending timer that is due first (the oldest one among equals),
    and the others. *)
Fixpoint popEarliest (ts : list (Z * Task))
  : option ((Z * Task) * list (Z * Task)) :=
  match ts with
  | [] => None
  | t :: rest =>
      match popEarliest rest with
      | None => Some (t, [])
      | Some (u, rest') =>
          if (fst t <=? fst u)%Z then Some (t, rest) else Some (u, t :: rest')
      end
  end.

(** What can happen to the plugin: the host calls the patched
    [onLinkHover]; time passes; the first due timer runs; the i-th suspended
    function goes on; the host changes on its own. *)
Inductive Input :=
| HoverLink (a : HoverArgs)
| Elapse (ms : Z)
| TimerFires
| PromiseSettles (i : nat)
| HostChange (what : nat).

Definition step (i : Input) (st : State) : State :=
  match i with
  | HoverLink a => snd (onLinkHover a st)
  | Elapse ms =>
      {| settings := settings st; currentSidebarLeaf := currentSidebarLeaf st;
         history := history st; timers := timers st;
         awaiting := awaiting st; now := now st + Z.max 0 ms |}
  | TimerFires =>
      match popEarliest (timers st) with
      | Some ((due, task), rest) =>
          if (due <=? now st)%Z then
            snd (runTask task
                   {| settings := settings st;
                      currentSidebarLeaf := currentSidebarLeaf st;
                      history := history st; timers := rest;
                      awaiting := awaiting st; now := now st |})
          else st
      | None => st
      end
  | PromiseSettles i =>
      match awaiting st !! i with
      | Some k =>
          snd (resume k
                 {| settings := settings st;
                    currentSidebarLeaf := currentSidebarLeaf st;
                    history := history st; timers := timers st;
                    awaiting := delete i (awaiting st); now := now st |})
      | None => st
      end
  | HostChange what => snd (call (HostChanged what) st)
  end.

Definition run (inputs : list Input) (st : State) : State :=
  fold_left (fun st i => step i st) inputs st.

End Plugin.

(** ** The popover life cycle *)
Module HoverEditor.

(** Modelled from the spec: the four states of a popover, of the class
    [HoverEditor] that is not among the sources. *)
Inductive PopoverState := Hidden | Showing | Shown | FadeOut.

(** Modelled from the spec: the class [HoverEditor] of [./popover] is not
    among the sources.  Of a popover the specification names its state, its
    pinned flag, its pending close timer and the pane it hosts. *)
Record t := {
  pstate : PopoverState;
  pinned : bool;
  closeTimer : option Z;
  attached : bool;
  destroyed : bool
}.

(** Modelled from the spec: the constructor of [HoverEditor].  A popover
    starts [Hidden] with no pane and no timer; whether it starts pinned is
    left open ([pinned0]). *)
Definition create (pinned0 : bool) : t :=
  {| pstate := Hidden; pinned := pinned0; closeTimer := None;
     attached := false; destroyed := false |}.

(** Modelled from the spec: [togglePin(explicit)] of [HoverEditor] sets the
    pinned flag. *)
Definition togglePin (explicit : bool) (p : t) : t :=
  {| pstate := pstate p; pinned := explicit; closeTimer := closeTimer p;
     attached := attached p; destroyed := destroyed p |}.

(** Modelled from the spec: [attachLeaf()] of [HoverEditor] allocates the
    pane inside the floating container; Hidden becomes Showing. *)
Definition attachLeaf (p : t) : t :=
  {| pstate := match pstate p with Hidden => Showing | s => s end;
     pinned := pinned p; closeTimer := closeTimer p;
     attached := true; destroyed := destroyed p |}.

(** Modelled from the spec: pointer-enter on a [HoverEditor] cancels any
    pending close timer; Showing and FadeOut become Shown. *)
Definition pointerEnter (p : t) : t :=
  {| pstate := match pstate p with Showing | FadeOut => Shown | s => s end;
     pinned := pinned p; closeTimer := None;
     attached := attached p; destroyed := destroyed p |}.

(** Modelled from the spec: pointer-leave on a [HoverEditor] starts a close
    timer of [closeDelay] ms, on an unpinned popover only. *)
Definition pointerLeave (closeDelay : Z) (p : t) : t :=
  if pinned p then p
  else {| pstate := pstate p; pinned := pinned p; closeTimer := Some closeDelay;
          attached := attached p; destroyed := destroyed p |}.

(** Modelled from the spec: expiry of the close timer of a [HoverEditor]
    not re-entered meanwhile: Shown, FadeOut, Hidden, destroyed, its pane
    detached.  A pinned popover ignores the timer. *)
Definition closeTimerExpires (p : t) : t :=
  match closeTimer p with
  | Some _ =>
      if pinned p then p
      else {| pstate := Hidden; pinned := pinned p; closeTimer := None;
              attached := false; destroyed := true |}
  | None => p
  end.

(** What the pointer and the clock can do to a popover. *)
Inductive Pointer := Enter | Leave | Expire.

Definition pointer (closeDelay : Z) (e : Pointer) (p : t) : t :=
  match e with
  | Enter => pointerEnter p
  | Leave => pointerLeave closeDelay p
  | Expire => closeTimerExpires p
  end.

Definition pointers (closeDelay : Z) (es : list Pointer) (p : t) : t :=
  fold_left (fun p e => pointer closeDelay e p) es p.

(** One method call of the history, applied to the popover [popover]. *)
Definition method (pinned0 : bool) (popover : nat) (o : option t) (e : Event)
  : option t :=
  match e with
  | NewHoverEditor q _ _ _ => if Nat.eqb q popover then Some (create pinned0) else o
  | TogglePin q v => if Nat.eqb q popover then togglePin v <$> o else o
  | AttachLeaf q => if Nat.eqb q popover then attachLeaf <$> o else o
  | _ => o
  end.

(** The popover [popover] as the method calls in [tr] leave it. *)
Definition ofCalls (pinned0 : bool) (popover : nat) (tr : list Event) : option t :=
  fold_left (method pinned0 popover) tr None.

End HoverEditor.

(** ** Observations on a state *)

(** [st'] is [st] after the outbound calls [new] and nothing else. *)
Definition onlyCalls (st st' : State) (new : list Event) : Prop :=
  settings st' = settings st /\
  currentSidebarLeaf st' = currentSidebarLeaf st /\
  history st' = history st ++ new /\
  timers st' = timers st /\
  awaiting st' = awaiting st /\
  now st' = now st.

(** [st'] is [st] with the timers [new] added and nothing else. *)
Definition onlyTimers (st st' : State) (new : list (Z * Task)) : Prop :=
  settings st' = settings st /\
  currentSidebarLeaf st' = currentSidebarLeaf st /\
  history st' = history st /\
  timers st' = timers st ++ new /\
  awaiting st' = awaiting st /\
  now st' = now st.

Definition hoverTaskFor (target : option Element) (t : Z * Task) : bool :=
  match snd t with
  | HandleHover _ a => bool_decide (targetEl a = target)
  | ApplyEphemeral _ _ => false
  end.

(** The number of scheduled [handleHover] actions for a target element. *)
Definition pendingHovers (target : option Element) (st : State) : nat :=
  length (List.filter (hoverTaskFor target) (timers st)).

Definition isSetViewState (e : Event) : bool :=
  match e with SetViewState _ _ => true | _ => false end.

Definition isGetSideLeaf (e : Event) : bool :=
  match e with GetSideLeaf _ _ => true | _ => false end.

(** The requests for a sidebar pane made so far. *)
Definition paneRequests (st : State) : list Event :=
  List.filter isGetSideLeaf (history st).

(** From [st] to [st'] the slot holds [l] and no pane was requested. *)
Definition sessionKept (l : Leaf) (st st' : State) : Prop :=
  currentSidebarLeaf st' = Some l /\ paneRequests st' = paneRequests st.

(** What [buildEphemeralState] calls [subpath]. *)
Definition anchorOf (linktext : string) : string :=
  if JS.includes "#" linktext
  then List.nth 1 (JS.split "#" linktext) EmptyString
  else EmptyString.

Section Observations.

Variable host : Host.

(** What [buildEphemeralState] calls [resolved]. *)
Definition resolvedAnchor (tr : list Event) (file : TFile) (linktext : string)
  : option SubpathResult :=
  match getFileCache host tr file with
  | Some c => resolveSubpath host c (anchorOf linktext)
  | None => None
  end.

(** The tracked pane, when there is one and it is not disposed. *)
Definition trackedLive (st : State) : option Leaf :=
  match currentSidebarLeaf st with
  | Some l => if leafDisposed host (history st) l then None else Some l
  | None => None
  end.

(** Asking the host for a pane on [side]: first without splitting, and with
    splitting only when that gave none.  The pane obtained, and the calls
    made. *)
Definition acquisition (side : Side) (tr : list Event)
  : option Leaf * list Event :=
  match sideLeaf host side tr false with
  | Some l => (Some l, [GetSideLeaf side false])
  | None =>
      (sideLeaf host side (tr ++ [GetSideLeaf side false]) true,
       [GetSideLeaf side false; GetSideLeaf side true])
  end.

(** The pane a call of [openFileInSidebar] works on, and what it asks of the
    host to get it. *)
Definition sessionLeaf (st : State) : option Leaf * list Event :=
  match trackedLive st with
  | Some l => (Some l, [])
  | None => acquisition (configuredSide (settings st)) (history st)
  end.

(** The view state [openFileInSidebar] loads. *)
Definition loadedView (tr : list Event) (s : HoverEditorSettings) (file : TFile)
  : ViewState :=
  {| vs_type := "markdown"; vs_file := file_path file;
     vs_mode := getViewMode host tr s; vs_active := true |}.

End Observations.

(** ** A small host to run the plugin on *)
Module Fake.

(** The link text cut at its first number sign. *)
Fixpoint parse (s : string) : ParsedLink :=
  match s with
  | EmptyString => {| link_path := EmptyString; link_subpath := EmptyString |}
  | String c s' =>
      if Ascii.eqb c "#" then {| link_path := EmptyString; link_subpath := s |}
      else let r := parse s' in
           {| link_path := String c (link_path r); link_subpath := link_subpath r |}
  end.

Definition closed (l : Leaf) (e : Event) : bool :=
  match e with HostChanged n => Nat.eqb n l | _ => false end.

(** A vault with one note, found under the link paths [Note] and [!Note],
    that has the heading [Heading]; the left sidebar hands out no pane unless
    it may split, the right one has none when [rightSidebar] is off;
    [HostChanged l] closes the pane [l]. *)
Definition host (rightSidebar : bool) : Host := {|
  parseLinktext := parse;
  resolveSubpath := fun _ subpath =>
    if String.eqb subpath "Heading" then
      Some {| sr_start := {| loc_line := 4; loc_col := 0; loc_offset := 40 |};
              sr_end := Some {| loc_line := 9; loc_col := 0; loc_offset := 90 |} |}
    else None;
  getFirstLinkpathDest := fun _ linkpath _ =>
    if String.eqb linkpath "Note" || String.eqb linkpath "!Note" then
      Some {| file_path := "Note.md" |}
    else None;
  getFileCache := fun _ _ => Some 0%nat;
  leafDisposed := fun tr l => existsb (closed l) tr;
  getLeftLeaf := fun tr split =>
    if split then Some (100 + length tr)%nat else None;
  getRightLeaf := fun tr _ =>
    if rightSidebar then Some (200 + length tr)%nat else None;
  activeViewMode := fun _ => Some "source";
  activeLeaf := fun _ => Some (1%nat, 10%nat);
  attachedLeaf := fun _ popover => (1000 + popover)%nat
|}.

Definition start (s : HoverEditorSettings) : State :=
  {| settings := s; currentSidebarLeaf := None; history := [];
     timers := []; awaiting := []; now := 0 |}.

Definition hover (target : Element) (linkText : string) : HoverArgs :=
  {| parent := 0%nat; targetEl := Some target; linkText := linkText;
     path := "Here.md"; state := None; args := [] |}.

Definition note : TFile := {| file_path := "Note.md" |}.

(** Stored data whose [footnotes] mode is none of the three modes. *)
Definition storedPopup : StoredSettings := {|
  s_defaultMode := None; s_autoPin := None; s_triggerDelay := None;
  s_closeDelay := None; s_autoFocus := None; s_rollDown := None;
  s_snapToEdges := None; s_initialHeight := None; s_initialWidth := None;
  s_showViewHeader := None; s_imageZoom := None;
  s_footnotes := Some "popup";
  s_headings := None; s_blocks := None; s_hoverEmbeds := None;
  s_sidebarAutoFocus := None; s_sidebarPosition := None;
  s_sidebarAutoReveal := None; s_regularLinks := None
|}.

(** The view state the plugin loads for the note. *)
Definition noteView : ViewState :=
  {| vs_type := "markdown"; vs_file := "Note.md";
     vs_mode := "source"; vs_active := true |}.

(** A plugin that already tracks the sidebar pane [l]. *)
Definition tracking (l : Leaf) : State :=
  {| settings := DEFAULT_SETTINGS; currentSidebarLeaf := Some l; history := [];
     timers := []; awaiting := []; now := 0 |}.

(** Two links hovered one after the other, each opened in the sidebar. *)
Definition twoPreviews : list Input :=
  [HoverLink (hover 7%nat "Note"); Elapse 300; TimerFires; PromiseSettles 0;
   HoverLink (hover 8%nat "Note#Heading"); Elapse 300; TimerFires;
   PromiseSettles 0; Elapse 50; TimerFires; TimerFires].

(** A link hovered, and hovered again 100 ms later. *)
Definition hoveredTwice : list Input :=
  [HoverLink (hover 7%nat "Note"); Elapse 100; HoverLink (hover 7%nat "Note")].

End Fake.

(** ** The settings tab *)

(** [this.plugin.settings.regularLinks = value] *)
Definition set_regularLinks (value : string) (s : HoverEditorSettings)
  : HoverEditorSettings := {|
  defaultMode := defaultMode s; autoPin := autoPin s;
  triggerDelay := triggerDelay s; closeDelay := closeDelay s;
  autoFocus := autoFocus s; rollDown := rollDown s;
  snapToEdges := snapToEdges s; initialHeight := initialHeight s;
  initialWidth := initialWidth s; showViewHeader := showViewHeader s;
  imageZoom := imageZoom s; footnotes := footnotes s; headings := headings s;
  blocks := blocks s; hoverEmbeds := hoverEmbeds s;
  sidebarAutoFocus := sidebarAutoFocus s; sidebarPosition := sidebarPosition s;
  sidebarAutoReveal := sidebarAutoReveal s;
  regularLinks := value
|}.

(** [this.plugin.settings.headings = value] *)
Definition set_headings (value : string) (s : HoverEditorSettings)
  : HoverEditorSettings := {|
  defaultMode := defaultMode s; autoPin := autoPin s;
  triggerDelay := triggerDelay s; closeDelay := closeDelay s;
  autoFocus := autoFocus s; rollDown := rollDown s;
  snapToEdges := snapToEdges s; initialHeight := initialHeight s;
  initialWidth := initialWidth s; showViewHeader := showViewHeader s;
  imageZoom := imageZoom s; footnotes := footnotes s;
  headings := value;
  blocks := blocks s; hoverEmbeds := hoverEmbeds s;
  sidebarAutoFocus := sidebarAutoFocus s; sidebarPosition := sidebarPosition s;
  sidebarAutoReveal := sidebarAutoReveal s; regularLinks := regularLinks s
|}.

(** [this.plugin.settings.blocks = value] *)
Definition set_blocks (value : string) (s : HoverEditorSettings)
  : HoverEditorSettings := {|
  defaultMode := defaultMode s; autoPin := autoPin s;
  triggerDelay := triggerDelay s; closeDelay := closeDelay s;
  autoFocus := autoFocus s; rollDown := rollDown s;
  snapToEdges := snapToEdges s; initialHeight := initialHeight s;
  initialWidth := initialWidth s; showViewHeader := showViewHeader s;
  imageZoom := imageZoom s; footnotes := footnotes s; headings := headings s;
  blocks := value;
  hoverEmbeds := hoverEmbeds s;
  sidebarAutoFocus := sidebarAutoFocus s; sidebarPosition := sidebarPosition s;
  sidebarAutoReveal := sidebarAutoReveal s; regularLinks := regularLinks s
|}.

(** [this.plugin.settings.hoverEmbeds = value] *)
Definition set_hoverEmbeds (value : string) (s : HoverEditorSettings)
  : HoverEditorSettings := {|
  defaultMode := defaultMode s; autoPin := autoPin s;
  triggerDelay := triggerDelay s; closeDelay := closeDelay s;
  autoFocus := autoFocus s; rollDown := rollDown s;
  snapToEdges := snapToEdges s; initialHeight := initialHeight s;
  initialWidth := initialWidth s; showViewHeader := showViewHeader s;
  imageZoom := imageZoom s; footnotes := footnotes s; headings := headings s;
  blocks := blocks s;
  hoverEmbeds := value;
  sidebarAutoFocus := sidebarAutoFocus s; sidebarPosition := sidebarPosition s;
  sidebarAutoReveal := sidebarAutoReveal s; regularLinks := regularLinks s
|}.

(** [this.plugin.settings.footnotes = value] *)
Definition set_footnotes (value : string) (s : HoverEditorSettings)
  : HoverEditorSettings := {|
  defaultMode := defaultMode s; autoPin := autoPin s;
  triggerDelay := triggerDelay s; closeDelay := closeDelay s;
  autoFocus := autoFocus s; rollDown := rollDown s;
  snapToEdges := snapToEdges s; initialHeight := initialHeight s;
  initialWidth := initialWidth s; showViewHeader := showViewHeader s;
  imageZoom := imageZoom s;
  footnotes := value;
  headings := headings s; blocks := blocks s; hoverEmbeds := hoverEmbeds s;
  sidebarAutoFocus := sidebarAutoFocus s; sidebarPosition := sidebarPosition s;
  sidebarAutoReveal := sidebarAutoReveal s; regularLinks := regularLinks s
|}.

(** [this.plugin.settings.initialWidth = value] *)
Definition set_initialWidth (value : string) (s : HoverEditorSettings)
  : HoverEditorSettings := {|
  defaultMode := defaultMode s; autoPin := autoPin s;
  triggerDelay := triggerDelay s; closeDelay := closeDelay s;
  autoFocus := autoFocus s; rollDown := rollDown s;
  snapToEdges := snapToEdges s; initialHeight := initialHeight s;
  initialWidth := value;
  showViewHeader := showViewHeader s;
  imageZoom := imageZoom s; footnotes := footnotes s; headings := headings s;
  blocks := blocks s; hoverEmbeds := hoverEmbeds s;
  sidebarAutoFocus := sidebarAutoFocus s; sidebarPosition := sidebarPosition s;
  sidebarAutoReveal := sidebarAutoReveal s; regularLinks := regularLinks s
|}.

(** [this.plugin.settings.initialHeight = value] *)
Definition set_initialHeight (value : string) (s : HoverEditorSettings)
  : HoverEditorSettings := {|
  defaultMode := defaultMode s; autoPin := autoPin s;
  triggerDelay := triggerDelay s; closeDelay := closeDelay s;
  autoFocus := autoFocus s; rollDown := rollDown s;
  snapToEdges := snapToEdges s;
  initialHeight := value;
  initialWidth := initialWidth s; showViewHeader := showViewHeader s;
  imageZoom := imageZoom s; footnotes := footnotes s; headings := headings s;
  blocks := blocks s; hoverEmbeds := hoverEmbeds s;
  sidebarAutoFocus := sidebarAutoFocus s; sidebarPosition := sidebarPosition s;
  sidebarAutoReveal := sidebarAutoReveal s; regularLinks := regularLinks s
|}.

(** The settings tab ([SettingTab.display]): what its change handlers do to
    the settings.  Each handler then saves them. *)
Module SettingTab.

(** The five dropdowns under the heading Preview Modes, by the link type
    they set. *)
Definition onModeChange (linkType : LinkClassification) (value : string)
    (s : HoverEditorSettings) : HoverEditorSettings :=
  match linkType with
  | Regular => set_regularLinks value s
  | Heading => set_headings value s
  | Block => set_blocks value s
  | Embed => set_hoverEmbeds value s
  | Footnote => set_footnotes value s
  end.

(** [if (!value) value = dflt] for what [parseCssUnitValue] returned: nothing
    ([None]) and the empty string are falsy. *)
Definition orDefault (parsed : option string) (dflt : string) : string :=
  match parsed with
  | Some v => if JS.truthy v then v else dflt
  | None => dflt
  end.

Section Sizes.

(** [parseCssUnitValue] of [../utils/misc], which is not among the sources. *)
Variable parseCssUnitValue : string -> option string.

(** The text field for the initial popover width. *)
Definition onInitialWidthChange (value : string) (s : HoverEditorSettings)
  : HoverEditorSettings :=
  let value := parseCssUnitValue value in
  let value := orDefault value (initialWidth DEFAULT_SETTINGS) in
  set_initialWidth value s.

(** The text field for the initial popover height. *)
Definition onInitialHeightChange (value : string) (s : HoverEditorSettings)
  : HoverEditorSettings :=
  let value := parseCssUnitValue value in
  let value := orDefault value (initialHeight DEFAULT_SETTINGS) in
  set_initialHeight value s.

End Sizes.

End SettingTab.

(** The settings key read for a link type. *)
Definition keyOf (c : LinkClassification) : SettingsKey :=
  match c with
  | Regular => K_regularLinks
  | Heading => K_headings
  | Block => K_blocks
  | Footnote => K_footnotes
  | Embed => K_hoverEmbeds
  end.

(** ** Numbers, and [genId] *)
Module JSNum.

(** A number cut to its integer part, towards zero. *)
Definition truncate (q : Q) : Z :=
  if Qle_bool 0 q then Qfloor q else Qceiling q.

(** [q | 0]: the integer part, wrapped to 32 bits, signed. *)
Definition toInt32 (q : Q) : Z :=
  (truncate q + 2 ^ 31) mod 2 ^ 32 - 2 ^ 31.

(** One digit of [toString(16)]. *)
Definition hexDigit (d : Z) : ascii :=
  if d <? 10 then ascii_of_nat (Z.to_nat d + 48)
  else ascii_of_nat (Z.to_nat d - 10 + 97).

(** The base-16 digits of a natural number, most significant first. *)
Fixpoint hexNat (fuel : nat) (n : Z) : string :=
  match fuel with
  | O => EmptyString
  | S fuel' =>
      if n <? 16 then String (hexDigit n) EmptyString
      else hexNat fuel' (n / 16) +:+ String (hexDigit (n mod 16)) EmptyString
  end.

(** [n.toString(16)] for an integer [n]. *)
Definition toString16 (n : Z) : string :=
  if n <? 0 then String "-" (hexNat (S (Z.to_nat (- n))) (- n))
  else hexNat (S (Z.to_nat n)) n.

End JSNum.

(** The loop of [genId]: [n] counts the calls of [Math.random()] made so
    far, [count] the rounds still to go; [random n] is what the n-th call
    returns, a number that 16 multiplies exactly. *)
Fixpoint genIdLoop (random : nat -> Q) (n count : nat) (chars : list string)
  : list string :=
  match count with
  | O => chars
  | S count' =>
      genIdLoop random (S n) count'
        (chars ++ [JSNum.toString16 (JSNum.toInt32 (16 * random n))])
  end.

(** [genId(size)]: the loop runs while [n < size], once for every natural
    number below [size]. *)
Definition genId (random : nat -> Q) (size : Q) : string :=
  String.concat EmptyString (genIdLoop random 0 (Z.to_nat (Qceiling size)) []).

Definition isHexDigit (c : ascii) : bool :=
  existsb (Ascii.eqb c) (list_ascii_of_string "0123456789abcdef").

Definition allHexDigits (s : string) : bool :=
  forallb isHexDigit (list_ascii_of_string s).

(** ** More observations on a state *)

(** The calls a hover can end in: the host's own hover, the floating hover,
    a file loaded into the sidebar pane. *)
Definition isOutcome (e : Event) : bool :=
  match e with
  | NativeLinkHover _ | FloatingLinkHover _ | SetViewState _ _ => true
  | _ => false
  end.

Definition outcomes (st : State) : nat :=
  length (List.filter isOutcome (history st)).

Definition isHandleHover (t : Z * Task) : bool :=
  match snd t with HandleHover _ _ => true | ApplyEphemeral _ _ => false end.

(** The hovers whose [handleHover] is still to run. *)
Definition pendingAll (st : State) : nat :=
  length (List.filter isHandleHover (timers st)).

Definition isHoverLink (i : Input) : bool :=
  match i with HoverLink _ => true | _ => false end.

Definition hoversIn (inputs : list Input) : nat :=
  length (List.filter isHoverLink inputs).

(** A file was loaded into the pane [l] in the course of [tr]. *)
Definition loadedInto (l : Leaf) (tr : list Event) : Prop :=
  exists vs, In (SetViewState l vs) tr.

(** Every event of [new], coming after [pre] and the events of [new] before
    it, satisfies [P]. *)
Fixpoint eventsOk (P : list Event -> Event -> Prop) (pre new : list Event)
  : Prop :=
  match new with
  | [] => True
  | e :: new' => P pre e /\ eventsOk P (pre ++ [e]) new'
  end.

Section Careful.

Variable host : Host.
Variable s : HoverEditorSettings.

(** What the sidebar preview manager may do after the events [pre]: scroll
    only a pane that is not disposed and has a file loaded; reveal and focus
    only a loaded pane, and only when the setting says so; ask for a pane only
    on the configured side; load only markdown views, made active. *)
Definition careful (pre : list Event) (e : Event) : Prop :=
  match e with
  | SetEphemeralState l _ => leafDisposed host pre l = false /\ loadedInto l pre
  | RevealLeaf l => loadedInto l pre /\ sidebarAutoReveal s = true
  | SetActiveLeaf l focus =>
      loadedInto l pre /\ focus = true /\ sidebarAutoFocus s = true
  | GetSideLeaf side _ => side = configuredSide s
  | SetViewState _ vs => vs_type vs = "markdown" /\ vs_active vs = true
  | _ => True
  end.

(** A state whose past was careful and whose pending closures are about
    loaded panes. *)
Definition sound (st : State) : Prop :=
  settings st = s /\
  eventsOk careful [] (history st) /\
  (forall due l eState,
     In (due, ApplyEphemeral l eState) (timers st) -> loadedInto l (history st)) /\
  (forall l eState,
     In (SidebarLoaded l eState) (awaiting st) -> loadedInto l (history st)).

End Careful.

(** A plugin that has just been loaded: nothing has happened yet, nothing is
    scheduled, nothing is suspended. *)
Definition fresh (st : State) : Prop :=
  history st = [] /\ timers st = [] /\ awaiting st = [].

(** A list of one-character strings of hexadecimal digits. *)
Definition hexChars (chars : list string) : Prop :=
  Forall (fun x => exists c, x = String c EmptyString /\ isHexDigit c = true) chars.

(** ** The file menu *)

(** A [TAbstractFile] is a file or a folder. *)
Inductive TAbstractFile :=
| AFile (f : TFile)
| AFolder (path : string).

(** The handler of [file-menu]: the file the item [Open in Hover Editor]
    would open, when the handler adds the item.  [forLeaf] is
    [HoverEditor.forLeaf]: the popover a leaf is in, if any. *)
Definition fileMenuItem (forLeaf : Leaf -> option nat) (file : TAbstractFile)
    (leaf : option Leaf) : option TFile :=
  let popover := match leaf with Some l => forLeaf l | None => None end in
  match file with
  | AFile f =>
      if negb (bool_decide (is_Some popover)) && negb (bool_decide (is_Some leaf))
      then Some f else None
  | AFolder _ => None
  end.

(** ** More sample data *)

(** Stored data with four of the five modes, each one of the three. *)
Definition storedModes : StoredSettings := {|
  s_defaultMode := None; s_autoPin := None; s_triggerDelay := Some 0;
  s_closeDelay := None; s_autoFocus := None; s_rollDown := None;
  s_snapToEdges := None; s_initialHeight := None; s_initialWidth := None;
  s_showViewHeader := None; s_imageZoom := None;
  s_footnotes := Some "sidebar";
  s_headings := Some "floating"; s_blocks := None;
  s_hoverEmbeds := Some "native";
  s_sidebarAutoFocus := None; s_sidebarPosition := Some "left";
  s_sidebarAutoReveal := None; s_regularLinks := Some "floating"
|}.

(** The sample host in a workspace that has no active leaf. *)
Definition hostWithoutActiveLeaf : Host := {|
  parseLinktext := parseLinktext (Fake.host true);
  resolveSubpath := resolveSubpath (Fake.host true);
  getFirstLinkpathDest := getFirstLinkpathDest (Fake.host true);
  getFileCache := getFileCache (Fake.host true);
  leafDisposed := leafDisposed (Fake.host true);
  getLeftLeaf := getLeftLeaf (Fake.host true);
  getRightLeaf := getRightLeaf (Fake.host true);
  activeViewMode := fun _ => None;
  activeLeaf := fun _ => None;
  attachedLeaf := attachedLeaf (Fake.host true)
|}.

(** Two previews with another pane closed in between, and the sidebar pane
    closed at the very end. *)
Definition previewsThenClosed : list Input :=
  [HoverLink (Fake.hover 7%nat "Note"); Elapse 300; TimerFires; PromiseSettles 0;
   HostChange 5%nat;
   HoverLink (Fake.hover 8%nat "Note#Heading"); Elapse 300; TimerFires;
   PromiseSettles 0; Elapse 50; TimerFires; TimerFires; HostChange 200%nat].
(** * Part II: properties *)

(** ** Strings *)

Example split_three : JS.split "#" "Note#A#B" = ["Note"; "A"; "B"].
Proof. reflexivity. Qed.

Example split_trailing : JS.split "#" "Note#" = ["Note"; EmptyString].
Proof. reflexivity. Qed.

Lemma split_nonempty (sep : ascii) (s : string) : JS.split sep s <> [].
Proof.
  destruct s as [|d s']; cbn [JS.split]; [discriminate|].
  destruct (Ascii.eqb d sep); [discriminate|].
  destruct (JS.split sep s'); discriminate.
Qed.

(** A string that contains the separator splits into two pieces at least, so
    that [s.split(sep)[1]] is defined. *)
Lemma includes_split_length (sep : ascii) (s : string) :
  JS.includes sep s = true -> (2 <= length (JS.split sep s))%nat.
Proof.
  induction s as [|d s' IH]; cbn [JS.includes JS.split]; [discriminate|].
  destruct (Ascii.eqb d sep).
  - intros _. pose proof (split_nonempty sep s') as Hne.
    destruct (JS.split sep s'); [congruence|]. cbn [length]. lia.
  - intros Hin. specialize (IH Hin).
    destruct (JS.split sep s') as [|x xs]; cbn [length] in *; lia.
Qed.

Lemma truthy_nonempty (s : string) : JS.truthy s = true <-> s <> EmptyString.
Proof. destruct s; cbn [JS.truthy]; split; congruence. Qed.

(** ** Link classification *)

Lemma linkMode_classify (host : Host) (s : HoverEditorSettings) (linkText : string) :
  linkMode host s linkText = modeSetting s (classify host linkText).
Proof.
  unfold linkMode, classify.
  destruct (JS.truthy _ && JS.firstIs _ _).
  - destruct (JS.startsWith "#[^" _); [reflexivity|].
    destruct (JS.startsWith "#^" _); reflexivity.
  - destruct (JS.startsWith "!" linkText); reflexivity.
Qed.

(** The two sigils exclude each other, whatever the order of the tests. *)
Lemma footnote_not_block (subpath : string) :
  JS.startsWith "#[^" subpath = true -> JS.startsWith "#^" subpath = false.
Proof.
  destruct subpath as [|a [|b r]]; cbn [JS.startsWith]; try discriminate.
  - destruct (Ascii.eqb "#" a); discriminate.
  - destruct (Ascii.eqb "#" a); [|discriminate].
    destruct (Ascii.eqb_spec "[" b) as [<-|]; [|discriminate].
    intros _. reflexivity.
Qed.

(** C2: a link text whose parsed subpath is non-empty (the host's parser
    makes such a subpath begin with the number sign) is a Footnote link, read
    from the [footnotes] setting, when the subpath starts with the footnote
    sigil; otherwise a Block link, read from [blocks], when it starts with
    the block sigil; otherwise a Heading link, read from [headings].  The
    footnote test comes first, the block test second. *)
Theorem classify_subpath_precedence (host : Host) (s : HoverEditorSettings)
    (linkText : string) :
  let subpath := link_subpath (parseLinktext host linkText) in
  subpath <> EmptyString ->
  JS.startsWith "#" subpath = true ->
  (JS.startsWith "#[^" subpath = true ->
     classify host linkText = Footnote /\ linkMode host s linkText = footnotes s) /\
  (JS.startsWith "#[^" subpath = false -> JS.startsWith "#^" subpath = true ->
     classify host linkText = Block /\ linkMode host s linkText = blocks s) /\
  (JS.startsWith "#[^" subpath = false -> JS.startsWith "#^" subpath = false ->
     classify host linkText = Heading /\ linkMode host s linkText = headings s).
Proof.
  intros subpath Hne Hhash.
  assert (Hguard : JS.truthy subpath && JS.firstIs "#" subpath = true).
  { destruct subpath as [|c r]; [congruence|].
    cbn [JS.startsWith] in Hhash. cbn [JS.truthy JS.firstIs andb].
    rewrite Ascii.eqb_sym. destruct (Ascii.eqb "#" c); [reflexivity | discriminate]. }
  rewrite linkMode_classify. unfold classify. fold subpath. rewrite Hguard.
  split; [|split].
  - intros Hf. rewrite Hf. split; reflexivity.
  - intros Hf Hb. rewrite Hf, Hb. split; reflexivity.
  - intros Hf Hb. rewrite Hf, Hb. split; reflexivity.
Qed.

Lemma classify_subpath_precedence_witness :
  (classify (Fake.host true) "Note#[^1]" = Footnote /\
   linkMode (Fake.host true) DEFAULT_SETTINGS "Note#[^1]" = "native") /\
  (classify (Fake.host true) "Note#^para" = Block /\
   linkMode (Fake.host true) DEFAULT_SETTINGS "Note#^para" = "floating") /\
  (classify (Fake.host true) "Note#Heading" = Heading /\
   linkMode (Fake.host true) DEFAULT_SETTINGS "Note#Heading" = "sidebar").
Proof.
  split; [|split].
  - apply (classify_subpath_precedence (Fake.host true) DEFAULT_SETTINGS "Note#[^1]");
      [discriminate | reflexivity | reflexivity].
  - apply (classify_subpath_precedence (Fake.host true) DEFAULT_SETTINGS "Note#^para");
      [discriminate | reflexivity | reflexivity | reflexivity].
  - apply (classify_subpath_precedence (Fake.host true) DEFAULT_SETTINGS "Note#Heading");
      [discriminate | reflexivity | reflexivity | reflexivity].
Defined.

(** C3: a link text whose parsed subpath is empty is an Embed link, read from
    the [hoverEmbeds] setting, when it starts with the exclamation mark, and
    a Regular link, read from [regularLinks], when it does not. *)
Theorem classify_without_subpath (host : Host) (s : HoverEditorSettings)
    (linkText : string) :
  link_subpath (parseLinktext host linkText) = EmptyString ->
  (JS.startsWith "!" linkText = true ->
     classify host linkText = Embed /\ linkMode host s linkText = hoverEmbeds s) /\
  (JS.startsWith "!" linkText = false ->
     classify host linkText = Regular /\ linkMode host s linkText = regularLinks s).
Proof.
  intros Hsub. rewrite linkMode_classify. unfold classify. rewrite Hsub.
  cbn [JS.truthy andb].
  split; intros Hbang; rewrite Hbang; split; reflexivity.
Qed.

Lemma classify_without_subpath_witness :
  (classify (Fake.host true) "!Note" = Embed /\
   linkMode (Fake.host true) DEFAULT_SETTINGS "!Note" = "sidebar") /\
  (classify (Fake.host true) "Note" = Regular /\
   linkMode (Fake.host true) DEFAULT_SETTINGS "Note" = "sidebar").
Proof.
  split.
  - apply (classify_without_subpath (Fake.host true) DEFAULT_SETTINGS "!Note");
      reflexivity.
  - apply (classify_without_subpath (Fake.host true) DEFAULT_SETTINGS "Note");
      reflexivity.
Defined.

(** ** Settings loading *)

(** C8, as the code has it: loading never fails; a key the stored data lacks
    takes the value of the default table, and a key it has keeps the stored
    value as it is, with no check against the field's enumeration. *)
Theorem loadSettings_stored_or_default (data : option StoredSettings)
    (k : SettingsKey) :
  let stored := match data with Some d => storedGet d k | None => None end in
  (stored = None ->
     settingsGet (loadSettings data) k = settingsGet DEFAULT_SETTINGS k) /\
  (forall v, stored = Some v -> settingsGet (loadSettings data) k = v).
Proof.
  destruct data as [d|]; cbn zeta.
  - destruct k; unfold loadSettings;
      cbn [storedGet settingsGet defaultMode autoPin triggerDelay closeDelay
           autoFocus rollDown snapToEdges initialHeight initialWidth
           showViewHeader imageZoom footnotes headings blocks hoverEmbeds
           sidebarAutoFocus sidebarPosition sidebarAutoReveal regularLinks];
      match goal with
      | |- context [assignKey _ ?o] => destruct o
      end; cbn; (split; [intros; congruence | congruence]).
  - split; [|discriminate]. intros _. destruct k; reflexivity.
Qed.

Lemma loadSettings_stored_or_default_witness :
  settingsGet (loadSettings (Some Fake.storedPopup)) K_headings = JStr "sidebar" /\
  settingsGet (loadSettings (Some Fake.storedPopup)) K_footnotes = JStr "popup".
Proof.
  split.
  - apply (proj1 (loadSettings_stored_or_default (Some Fake.storedPopup) K_headings)).
    reflexivity.
  - apply (proj2 (loadSettings_stored_or_default (Some Fake.storedPopup) K_footnotes)).
    reflexivity.
Defined.

(** C8 as stated fails: the stored string [popup] is none of the three
    modes, yet loading neither rejects it nor puts the default [native] in
    its place: the loaded [footnotes] setting is [popup]. *)
Lemma unrecognized_mode_is_kept :
  isModeKey K_footnotes = true /\
  storedGet Fake.storedPopup K_footnotes = Some (JStr "popup") /\
  isMode (JStr "popup") = false /\
  footnotes (loadSettings (Some Fake.storedPopup)) = "popup" /\
  footnotes (loadSettings (Some Fake.storedPopup)) <> footnotes DEFAULT_SETTINGS.
Proof. repeat split; try reflexivity. discriminate. Qed.

(** With that setting a hovered footnote link is neither left to the host
    nor opened in the sidebar: after the trigger delay it goes to the
    floating [onLinkHover]. *)
Example unrecognized_mode_opens_floating :
  history (run (Fake.host true)
             [HoverLink (Fake.hover 7%nat "Note#[^1]"); Elapse 300; TimerFires]
             (Fake.start (loadSettings (Some Fake.storedPopup)))) =
  [FloatingLinkHover (Fake.hover 7%nat "Note#[^1]")].
Proof. vm_compute. reflexivity. Qed.

(** ** The ephemeral state *)

Lemma buildEphemeralState_unfold (host : Host) (tr : list Event) (file : TFile)
    (linktext : string) (oldState : option EphemeralState) :
  buildEphemeralState host tr file linktext oldState =
  let eState :=
    spread {[ "subpath" := if JS.truthy (anchorOf linktext)
                           then JStr ("#" +:+ anchorOf linktext) else JUndefined ]}
           oldState in
  match resolvedAnchor host tr file linktext with
  | Some r =>
      <["endLoc" := locOrNull (sr_end r)]>
        (<["startLoc" := JLoc (sr_start r)]>
           (<["line" := JNum (loc_line (sr_start r))]> eState))
  | None => eState
  end.
Proof. reflexivity. Qed.

Lemma spread_subpath (v : JVal) (oldState : option EphemeralState) :
  (forall o, oldState = Some o -> o !! "subpath" = None) ->
  spread {[ "subpath" := v ]} oldState !! "subpath" = Some v.
Proof.
  intros Hold. destruct oldState as [o|]; cbn [spread].
  - rewrite lookup_union_r by (apply Hold; reflexivity).
    apply lookup_singleton_eq.
  - apply lookup_singleton_eq.
Qed.

(** A [subpath] property of the incoming state replaces the computed one. *)
Lemma spread_subpath_overridden (v w : JVal) (o : EphemeralState) :
  o !! "subpath" = Some w ->
  spread {[ "subpath" := v ]} (Some o) !! "subpath" = Some w.
Proof. intros Ho. cbn [spread]. apply lookup_union_Some_l, Ho. Qed.

(** C7, as the code has it: when the text between the first number sign of
    the link text and the next one (or the end) is non-empty and the incoming
    state has no [subpath] property of its own, the ephemeral state's
    [subpath] is the number sign followed by that text, whether or not the
    anchor resolves; and whenever the anchor resolves, for any link text and
    any incoming state, [line], [startLoc] and [endLoc] hold the resolved
    line and positions. *)
Theorem buildEphemeralState_anchor (host : Host) (tr : list Event) (file : TFile)
    (linktext : string) (oldState : option EphemeralState) :
  (JS.includes "#" linktext = true ->
   List.nth 1 (JS.split "#" linktext) EmptyString <> EmptyString ->
   (forall o, oldState = Some o -> o !! "subpath" = None) ->
   buildEphemeralState host tr file linktext oldState !! "subpath" =
     Some (JStr ("#" +:+ List.nth 1 (JS.split "#" linktext) EmptyString))) /\
  (forall r, resolvedAnchor host tr file linktext = Some r ->
   buildEphemeralState host tr file linktext oldState !! "line" =
     Some (JNum (loc_line (sr_start r))) /\
   buildEphemeralState host tr file linktext oldState !! "startLoc" =
     Some (JLoc (sr_start r)) /\
   buildEphemeralState host tr file linktext oldState !! "endLoc" =
     Some (locOrNull (sr_end r))).
Proof.
  rewrite buildEphemeralState_unfold. cbn zeta. split.
  - intros Hin Hne Hold.
    assert (Ha : anchorOf linktext = List.nth 1 (JS.split "#" linktext) EmptyString)
      by (unfold anchorOf; rewrite Hin; reflexivity).
    rewrite Ha. apply truthy_nonempty in Hne. rewrite Hne.
    destruct (resolvedAnchor host tr file linktext).
    + rewrite !lookup_insert_ne by discriminate. apply spread_subpath, Hold.
    + apply spread_subpath, Hold.
  - intros r Hr. rewrite Hr. split; [|split].
    + rewrite !lookup_insert_ne by discriminate. apply lookup_insert_eq.
    + rewrite lookup_insert_ne by discriminate. apply lookup_insert_eq.
    + apply lookup_insert_eq.
Qed.

Lemma buildEphemeralState_anchor_witness :
  buildEphemeralState (Fake.host true) [] Fake.note "Note#Nowhere"
                      (Some {[ "scroll" := JNum 3 ]})
    !! "subpath" = Some (JStr "#Nowhere") /\
  buildEphemeralState (Fake.host true) [] Fake.note "Note#Heading" None
    !! "line" = Some (JNum 4).
Proof.
  split.
  - apply (proj1 (buildEphemeralState_anchor (Fake.host true) [] Fake.note
                    "Note#Nowhere" (Some {[ "scroll" := JNum 3 ]})));
      [reflexivity | discriminate |].
    intros o Ho. injection Ho as <-. reflexivity.
  - apply (proj2 (buildEphemeralState_anchor (Fake.host true) [] Fake.note
                    "Note#Heading" None)
                 {| sr_start := {| loc_line := 4; loc_col := 0; loc_offset := 40 |};
                    sr_end := Some {| loc_line := 9; loc_col := 0; loc_offset := 90 |} |}).
    reflexivity.
Defined.

(** C7 as stated fails.  The link text [Note#] contains the number sign and
    yields no anchor hint at all; and for [Note#Nowhere], whose anchor does
    not resolve, an incoming state that has a [subpath] of its own keeps
    it. *)
Lemma anchor_hint_not_always_carried :
  JS.includes "#" "Note#" = true /\
  buildEphemeralState (Fake.host true) [] Fake.note "Note#" None
    !! "subpath" = Some JUndefined /\
  JS.includes "#" "Note#Nowhere" = true /\
  resolvedAnchor (Fake.host true) [] Fake.note "Note#Nowhere" = None /\
  buildEphemeralState (Fake.host true) [] Fake.note "Note#Nowhere"
                      (Some {[ "subpath" := JStr "#Else" ]})
    !! "subpath" = Some (JStr "#Else").
Proof. repeat split; vm_compute; reflexivity. Qed.

(** Of a nested anchor only the first level is carried. *)
Example nested_anchor_first_level :
  buildEphemeralState (Fake.host true) [] Fake.note "Note#A#B" None
    !! "subpath" = Some (JStr "#A").
Proof. vm_compute. reflexivity. Qed.

(** ** The link-mode resolver at work *)

Lemma call_onlyCalls (e : Event) (st : State) :
  fst (call e st) = Return tt /\ onlyCalls st (snd (call e st)) [e].
Proof. unfold onlyCalls. cbn. repeat split. Qed.

Lemma setTimeout_onlyTimers (task : Task) (delay : Z) (st : State) :
  fst (setTimeout task delay st) = Return tt /\
  onlyTimers st (snd (setTimeout task delay st)) [(now st + delay, task)].
Proof. unfold onlyTimers. cbn. repeat split. Qed.

Section Resolver.

Variable host : Host.

Lemma onLinkHover_native (a : HoverArgs) (st : State) :
  linkMode host (settings st) (linkText a) = "native" ->
  onLinkHover host a st = call (NativeLinkHover a) st.
Proof.
  intros Hmode. unfold onLinkHover, bind, gets. rewrite Hmode. reflexivity.
Qed.

Lemma onLinkHover_delayed (a : HoverArgs) (st : State) :
  linkMode host (settings st) (linkText a) <> "native" ->
  0 < triggerDelay (settings st) ->
  onLinkHover host a st =
  setTimeout (HandleHover (linkMode host (settings st) (linkText a)) a)
             (triggerDelay (settings st)) st.
Proof.
  intros Hmode Hdelay. unfold onLinkHover, bind, gets.
  apply String.eqb_neq in Hmode. rewrite Hmode.
  apply Z.ltb_lt in Hdelay. rewrite Hdelay. reflexivity.
Qed.

Lemma onLinkHover_immediate (a : HoverArgs) (st : State) :
  linkMode host (settings st) (linkText a) <> "native" ->
  triggerDelay (settings st) <= 0 ->
  onLinkHover host a st =
  handleHover host (linkMode host (settings st) (linkText a)) a st.
Proof.
  intros Hmode Hdelay. unfold onLinkHover, bind, gets.
  apply String.eqb_neq in Hmode. rewrite Hmode.
  apply Z.ltb_ge in Hdelay. rewrite Hdelay. reflexivity.
Qed.

Lemma handleHover_unresolved (mode : string) (a : HoverArgs) (st : State) :
  getFirstLinkpathDest host (history st)
    (link_path (parseLinktext host (linkText a))) (path a) = None ->
  handleHover host mode a st = call (NativeLinkHover a) st.
Proof.
  intros Hfile. unfold handleHover, bind, gets. rewrite Hfile. reflexivity.
Qed.

(** A resolved link in floating mode goes to the floating [onLinkHover]. *)
Lemma handleHover_floating (mode : string) (a : HoverArgs) (st : State) (file : TFile) :
  getFirstLinkpathDest host (history st)
    (link_path (parseLinktext host (linkText a))) (path a) = Some file ->
  mode <> "sidebar" ->
  handleHover host mode a st = call (FloatingLinkHover a) st.
Proof.
  intros Hfile Hmode. unfold handleHover, bind, gets. rewrite Hfile.
  apply String.eqb_neq in Hmode. rewrite Hmode. reflexivity.
Qed.

End Resolver.

(** C6: when the mode of the link is Native, the patched [onLinkHover] calls
    the host's own [onLinkHover] with the arguments it received and does
    nothing else: no timer is set, nothing is opened, the sidebar pane is not
    touched. *)
Theorem native_mode_passes_through (host : Host) (a : HoverArgs) (st : State) :
  linkMode host (settings st) (linkText a) = "native" ->
  fst (onLinkHover host a st) = Return tt /\
  onlyCalls st (snd (onLinkHover host a st)) [NativeLinkHover a].
Proof.
  intros Hmode. rewrite (onLinkHover_native host a st Hmode).
  apply call_onlyCalls.
Qed.

Lemma native_mode_passes_through_witness :
  fst (onLinkHover (Fake.host true) (Fake.hover 7%nat "Note#[^1]")
                   (Fake.start DEFAULT_SETTINGS)) = Return tt /\
  onlyCalls (Fake.start DEFAULT_SETTINGS)
            (snd (onLinkHover (Fake.host true) (Fake.hover 7%nat "Note#[^1]")
                              (Fake.start DEFAULT_SETTINGS)))
            [NativeLinkHover (Fake.hover 7%nat "Note#[^1]")].
Proof.
  apply (native_mode_passes_through (Fake.host true) (Fake.hover 7%nat "Note#[^1]")
           (Fake.start DEFAULT_SETTINGS)).
  reflexivity.
Defined.

(** C4: a hover whose mode is not Native reaches [handleHover], through a
    timer when the trigger delay is positive and at once otherwise; and
    whenever [handleHover] runs and the link text resolves to no file, it
    calls the host's own [onLinkHover] with the original arguments and does
    nothing else: the hover is not dropped, and neither the floating
    [onLinkHover] nor the sidebar is called. *)
Theorem unresolved_link_falls_back (host : Host) (a : HoverArgs) (st : State) :
  let mode := linkMode host (settings st) (linkText a) in
  mode <> "native" ->
  (0 < triggerDelay (settings st) ->
     onlyTimers st (snd (onLinkHover host a st))
       [(now st + triggerDelay (settings st), HandleHover mode a)]) /\
  (triggerDelay (settings st) <= 0 ->
     onLinkHover host a st = runTask host (HandleHover mode a) st) /\
  (forall st',
     getFirstLinkpathDest host (history st')
       (link_path (parseLinktext host (linkText a))) (path a) = None ->
     fst (runTask host (HandleHover mode a) st') = Return tt /\
     onlyCalls st' (snd (runTask host (HandleHover mode a) st'))
       [NativeLinkHover a]).
Proof.
  intros mode Hmode. split; [|split].
  - intros Hdelay. rewrite (onLinkHover_delayed host a st Hmode Hdelay).
    apply setTimeout_onlyTimers.
  - intros Hdelay. apply (onLinkHover_immediate host a st Hmode Hdelay).
  - intros st' Hfile. cbn [runTask].
    rewrite (handleHover_unresolved host mode a st' Hfile).
    apply call_onlyCalls.
Qed.

Lemma unresolved_link_falls_back_witness :
  onlyCalls (Fake.start DEFAULT_SETTINGS)
            (snd (runTask (Fake.host true)
                    (HandleHover "sidebar" (Fake.hover 7%nat "Missing"))
                    (Fake.start DEFAULT_SETTINGS)))
            [NativeLinkHover (Fake.hover 7%nat "Missing")].
Proof.
  apply (proj2 (proj2 (unresolved_link_falls_back (Fake.host true)
                         (Fake.hover 7%nat "Missing") (Fake.start DEFAULT_SETTINGS)
                         ltac:(discriminate)))
               (Fake.start DEFAULT_SETTINGS)).
  reflexivity.
Defined.

(** The whole way of an unresolved link: hovered, the trigger delay waited
    for, the timer run. *)
Example unresolved_link_end_to_end :
  history (run (Fake.host true)
             [HoverLink (Fake.hover 7%nat "Missing"); Elapse 300; TimerFires]
             (Fake.start DEFAULT_SETTINGS)) =
  [NativeLinkHover (Fake.hover 7%nat "Missing")].
Proof. vm_compute. reflexivity. Qed.

(** ** Pending hovers *)

Lemma pendingHovers_scheduled (a : HoverArgs) (mode : string) (due : Z)
    (st st' : State) :
  onlyTimers st st' [(due, HandleHover mode a)] ->
  pendingHovers (targetEl a) st' = S (pendingHovers (targetEl a) st).
Proof.
  intros (_ & _ & _ & Htimers & _). unfold pendingHovers. rewrite Htimers.
  rewrite List.filter_app, length_app. cbn [List.filter hoverTaskFor snd].
  rewrite bool_decide_eq_true_2 by reflexivity. cbn [length]. lia.
Qed.

(** One hover, one more pending action for its target. *)
Lemma hover_adds_pending (host : Host) (a : HoverArgs) (st : State) :
  linkMode host (settings st) (linkText a) <> "native" ->
  0 < triggerDelay (settings st) ->
  pendingHovers (targetEl a) (step host (HoverLink a) st) =
  S (pendingHovers (targetEl a) st).
Proof.
  intros Hmode Hdelay. cbn [step].
  rewrite (onLinkHover_delayed host a st Hmode Hdelay).
  eapply pendingHovers_scheduled, setTimeout_onlyTimers.
Qed.

(** C1, as the code has it: every hover whose mode is not Native, under a
    positive trigger delay, schedules a [handleHover] action of its own, due
    one trigger delay after that hover; nothing is recorded per target and no
    timer is ever cancelled.  So two hovers on the same target, the second
    within the trigger delay of the first, leave two scheduled actions. *)
Theorem every_hover_schedules_its_own (host : Host) (a : HoverArgs) (d : Z)
    (st : State) :
  let mode := linkMode host (settings st) (linkText a) in
  let delay := triggerDelay (settings st) in
  mode <> "native" ->
  0 < delay ->
  0 <= d < delay ->
  timers (run host [HoverLink a; Elapse d; HoverLink a] st) =
    timers st ++ [(now st + delay, HandleHover mode a);
                  (now st + d + delay, HandleHover mode a)] /\
  history (run host [HoverLink a; Elapse d; HoverLink a] st) = history st /\
  pendingHovers (targetEl a) (run host [HoverLink a; Elapse d; HoverLink a] st) =
    S (S (pendingHovers (targetEl a) st)).
Proof.
  intros mode delay Hmode Hdelay Hd.
  assert (Hrun : run host [HoverLink a; Elapse d; HoverLink a] st =
            {| settings := settings st;
               currentSidebarLeaf := currentSidebarLeaf st;
               history := history st;
               timers := timers st ++ [(now st + delay, HandleHover mode a);
                                       (now st + d + delay, HandleHover mode a)];
               awaiting := awaiting st;
               now := now st + d |}).
  { cbn [run fold_left step].
    rewrite (onLinkHover_delayed host a st Hmode Hdelay).
    cbn [setTimeout snd settings currentSidebarLeaf history timers awaiting now].
    rewrite onLinkHover_delayed;
      cbn [settings currentSidebarLeaf history timers awaiting now];
      [|exact Hmode|exact Hdelay].
    cbn [setTimeout snd settings currentSidebarLeaf history timers awaiting now].
    rewrite <- app_assoc. cbn [app]. fold mode delay.
    replace (Z.max 0 d) with d by lia. reflexivity. }
  rewrite Hrun. cbn [timers history]. split; [reflexivity|]. split; [reflexivity|].
  unfold pendingHovers. cbn [timers]. rewrite List.filter_app, length_app.
  cbn [List.filter hoverTaskFor snd].
  rewrite bool_decide_eq_true_2 by reflexivity. cbn [length]. lia.
Qed.

Lemma every_hover_schedules_its_own_witness :
  pendingHovers (Some 7%nat)
    (run (Fake.host true)
       [HoverLink (Fake.hover 7%nat "Note"); Elapse 100;
        HoverLink (Fake.hover 7%nat "Note")]
       (Fake.start DEFAULT_SETTINGS)) = 2%nat.
Proof.
  apply (proj2 (proj2 (every_hover_schedules_its_own (Fake.host true)
                         (Fake.hover 7%nat "Note") 100 (Fake.start DEFAULT_SETTINGS)
                         ltac:(discriminate) ltac:(reflexivity)
                         ltac:(split; [discriminate | reflexivity])))).
Defined.

(** C1 as stated fails: with the default settings (regular links open in the
    sidebar after 300 ms) a link is hovered, and hovered again 100 ms later;
    two [handleHover] actions for that target are then scheduled, not one,
    and once both timers have run the file has been loaded twice. *)
Lemma second_hover_schedules_again :
  100 < triggerDelay DEFAULT_SETTINGS /\
  linkMode (Fake.host true) DEFAULT_SETTINGS "Note" = "sidebar" /\
  pendingHovers (Some 7%nat) (Fake.start DEFAULT_SETTINGS) = 0%nat /\
  pendingHovers (Some 7%nat)
    (run (Fake.host true) Fake.hoveredTwice (Fake.start DEFAULT_SETTINGS)) = 2%nat /\
  pendingHovers (Some 7%nat)
    (run (Fake.host true) Fake.hoveredTwice (Fake.start DEFAULT_SETTINGS)) <> 1%nat /\
  List.filter isSetViewState
    (history (run (Fake.host true)
                (Fake.hoveredTwice ++ [Elapse 300; TimerFires; TimerFires])
                (Fake.start DEFAULT_SETTINGS))) =
  [SetViewState 200%nat Fake.noteView; SetViewState 200%nat Fake.noteView].
Proof.
  split; [reflexivity|]. split; [reflexivity|]. split; [reflexivity|].
  split; [vm_compute; reflexivity|]. split; [vm_compute; discriminate|].
  vm_compute. reflexivity.
Qed.

(** ** The sidebar session *)

Section Sidebar.

Variable host : Host.

(** [openFileInSidebar], run symbolically. *)
Lemma openFileInSidebar_run (file : TFile) (linkText : string)
    (state : option EphemeralState) (st : State) :
  openFileInSidebar host file linkText state st =
  let tr := history st ++ snd (sessionLeaf host st) in
  match fst (sessionLeaf host st) with
  | Some l =>
      (Return tt,
       {| settings := settings st; currentSidebarLeaf := Some l;
          history := tr ++ [SetViewState l (loadedView host tr (settings st) file)];
          timers := timers st;
          awaiting := awaiting st ++
            [SidebarLoaded l (buildEphemeralState host tr file linkText state)];
          now := now st |})
  | None =>
      (TypeError,
       {| settings := settings st; currentSidebarLeaf := None;
          history := tr; timers := timers st; awaiting := awaiting st;
          now := now st |})
  end.
Proof.
  destruct st as [s cur tr ts ks t].
  unfold sessionLeaf, trackedLive, acquisition, loadedView.
  unfold openFileInSidebar, nullishOr, getLeaf, bind, gets, call, ret, throw,
    setCurrentSidebarLeaf, await.
  cbn [settings currentSidebarLeaf history timers awaiting now].
  destruct cur as [l|]; [destruct (leafDisposed host tr l)|].
  2: { cbn [fst snd]. rewrite app_nil_r. reflexivity. }
  all: destruct (sideLeaf host (configuredSide s) tr false) eqn:Hfirst;
    cbn [fst snd settings currentSidebarLeaf history timers awaiting now];
    rewrite ?Hfirst;
    cbn [fst snd settings currentSidebarLeaf history timers awaiting now];
    [reflexivity|];
    destruct (sideLeaf host (configuredSide s) _ true);
    cbn [fst snd settings currentSidebarLeaf history timers awaiting now];
    rewrite <- ?app_assoc; reflexivity.
Qed.

End Sidebar.

(** [openFileInSidebar] after its [await], run symbolically. *)
Lemma openFileInSidebar_loaded_run (leaf : Leaf) (eState : EphemeralState)
    (st : State) :
  openFileInSidebar_loaded leaf eState st =
  (Return tt,
   {| settings := settings st; currentSidebarLeaf := currentSidebarLeaf st;
      history := history st
               ++ (if sidebarAutoReveal (settings st) then [RevealLeaf leaf] else [])
               ++ (if sidebarAutoFocus (settings st) then [SetActiveLeaf leaf true]
                   else []);
      timers := timers st ++ [(now st + 50, ApplyEphemeral leaf eState)];
      awaiting := awaiting st; now := now st |}).
Proof.
  unfold openFileInSidebar_loaded, bind, gets, call, ret, setTimeout.
  destruct st as [s cur tr ts ks t].
  cbn [settings currentSidebarLeaf history timers awaiting now].
  destruct (sidebarAutoReveal s), (sidebarAutoFocus s);
    cbn [settings currentSidebarLeaf history timers awaiting now];
    rewrite <- ?app_assoc, ?app_nil_r; reflexivity.
Qed.

(** C5: the plugin has one slot for a sidebar pane.  A call of
    [openFileInSidebar] that finds a pane in it that is not disposed keeps
    it, asks the host for no pane and loads the file into it.  Only when the
    slot is empty or its pane disposed does the call ask the host for a
    pane: with [getLeftLeaf] when [sidebarPosition] is the string left and
    with [getRightLeaf] otherwise, first without splitting and then, if that
    gave none, with splitting; what it got goes into the slot, and the file
    is loaded into that pane. *)
Theorem single_sidebar_session (host : Host) (file : TFile) (linkText : string)
    (state : option EphemeralState) (st : State) :
  let st' := snd (openFileInSidebar host file linkText state st) in
  let load tr l :=
    SetViewState l {| vs_type := "markdown"; vs_file := file_path file;
                      vs_mode := getViewMode host tr (settings st);
                      vs_active := true |} in
  (forall l, currentSidebarLeaf st = Some l ->
     leafDisposed host (history st) l = false ->
     currentSidebarLeaf st' = Some l /\
     history st' = history st ++ [load (history st) l]) /\
  ((currentSidebarLeaf st = None \/
    exists l, currentSidebarLeaf st = Some l /\
              leafDisposed host (history st) l = true) ->
   forall side getSideLeaf,
     (sidebarPosition (settings st) = "left" /\
      side = LeftSide /\ getSideLeaf = getLeftLeaf host) \/
     (sidebarPosition (settings st) <> "left" /\
      side = RightSide /\ getSideLeaf = getRightLeaf host) ->
     let asked := history st ++ [GetSideLeaf side false] in
     match getSideLeaf (history st) false with
     | Some l =>
         currentSidebarLeaf st' = Some l /\
         history st' = asked ++ [load asked l]
     | None =>
         currentSidebarLeaf st' = getSideLeaf asked true /\
         history st' =
           (asked ++ [GetSideLeaf side true]) ++
           match getSideLeaf asked true with
           | Some l => [load (asked ++ [GetSideLeaf side true]) l]
           | None => []
           end
     end).
Proof.
  cbn zeta. rewrite openFileInSidebar_run. cbn zeta.
  unfold sessionLeaf, trackedLive. split.
  - intros l Hcur Hlive. rewrite Hcur, Hlive. cbn [fst snd currentSidebarLeaf history].
    rewrite app_nil_r. split; reflexivity.
  - intros Hnone side getSideLeaf Hside.
    assert (Htracked : match currentSidebarLeaf st with
                       | Some l => if leafDisposed host (history st) l
                                   then None else Some l
                       | None => None
                       end = None).
    { destruct Hnone as [->|(l & -> & ->)]; reflexivity. }
    rewrite Htracked.
    assert (Hasks : configuredSide (settings st) = side /\
                    sideLeaf host side = getSideLeaf).
    { unfold configuredSide.
      destruct Hside as [(Hleft & -> & ->)|(Hright & -> & ->)].
      - rewrite Hleft. split; reflexivity.
      - destruct (String.eqb_spec (sidebarPosition (settings st)) "left");
          [contradiction|]. split; reflexivity. }
    destruct Hasks as [-> <-]. unfold acquisition.
    destruct (sideLeaf host side (history st) false) as [l|]; cbn [fst snd].
    + cbn [currentSidebarLeaf history]. rewrite <- !app_assoc. split; reflexivity.
    + destruct (sideLeaf host side (history st ++ [GetSideLeaf side false]) true);
        cbn [currentSidebarLeaf history]; rewrite <- ?app_assoc, ?app_nil_r;
        split; reflexivity.
Qed.

Lemma single_sidebar_session_witness :
  (currentSidebarLeaf
     (snd (openFileInSidebar (Fake.host true) Fake.note "Note" None
             (Fake.tracking 200%nat))) = Some 200%nat /\
   history
     (snd (openFileInSidebar (Fake.host true) Fake.note "Note" None
             (Fake.tracking 200%nat))) = [SetViewState 200%nat Fake.noteView]) /\
  (currentSidebarLeaf
     (snd (openFileInSidebar (Fake.host true) Fake.note "Note" None
             (Fake.start (loadSettings (Some storedModes))))) = Some 101%nat /\
   history
     (snd (openFileInSidebar (Fake.host true) Fake.note "Note" None
             (Fake.start (loadSettings (Some storedModes))))) =
     [GetSideLeaf LeftSide false; GetSideLeaf LeftSide true;
      SetViewState 101%nat Fake.noteView]).
Proof.
  split.
  - exact (proj1 (single_sidebar_session (Fake.host true) Fake.note "Note" None
                    (Fake.tracking 200%nat)) 200%nat eq_refl eq_refl).
  - exact (proj2 (single_sidebar_session (Fake.host true) Fake.note "Note" None
                    (Fake.start (loadSettings (Some storedModes))))
                 (or_introl eq_refl) LeftSide (getLeftLeaf (Fake.host true))
                 (or_introl (conj eq_refl (conj eq_refl eq_refl)))).
Defined.

(** A first preview takes a pane of the right sidebar; a second one, of
    another link, asks for none and loads into the same pane. *)
Example second_preview_reuses_pane :
  List.filter (fun e => isGetSideLeaf e || isSetViewState e)
    (history (run (Fake.host true) Fake.twoPreviews (Fake.start DEFAULT_SETTINGS))) =
  [GetSideLeaf RightSide false;
   SetViewState 200%nat Fake.noteView; SetViewState 200%nat Fake.noteView].
Proof. vm_compute. reflexivity. Qed.

(** A disposed pane is replaced by a new one of the configured side. *)
Example disposed_pane_is_replaced :
  currentSidebarLeaf
    (snd (openFileInSidebar (Fake.host true) Fake.note "Note" None
            (step (Fake.host true) (HostChange 200%nat) (Fake.tracking 200%nat)))) =
  Some 201%nat.
Proof. vm_compute. reflexivity. Qed.

(** Where the host has no pane to give, the call ends in a [TypeError] before
    anything is loaded. *)
Example no_sidebar_pane_no_load :
  openFileInSidebar (Fake.host false) Fake.note "Note" None
                    (Fake.start DEFAULT_SETTINGS) =
  (TypeError,
   {| settings := DEFAULT_SETTINGS; currentSidebarLeaf := None;
      history := [GetSideLeaf RightSide false; GetSideLeaf RightSide true];
      timers := []; awaiting := []; now := 0 |}).
Proof. reflexivity. Qed.

(** The two steps after the load.  In a call of [openFileInSidebar] that
    has a pane, once the file is loaded [revealLeaf] is called exactly when
    [sidebarAutoReveal] is set and [setActiveLeaf] exactly when
    [sidebarAutoFocus] is set; with [sidebarAutoReveal] set and
    [sidebarAutoFocus] not, [revealLeaf] is the only call made. *)
Lemma reveal_and_focus_calls (host : Host) (file : TFile)
    (linkText : string) (state : option EphemeralState) (st st1 : State) :
  openFileInSidebar host file linkText state st = (Return tt, st1) ->
  exists leaf eState,
    currentSidebarLeaf st1 = Some leaf /\
    awaiting st1 = awaiting st ++ [SidebarLoaded leaf eState] /\
    forall st2, exists new,
      history (snd (resume (SidebarLoaded leaf eState) st2)) = history st2 ++ new /\
      (In (RevealLeaf leaf) new <-> sidebarAutoReveal (settings st2) = true) /\
      (In (SetActiveLeaf leaf true) new <-> sidebarAutoFocus (settings st2) = true) /\
      (forall l, In (RevealLeaf l) new -> sidebarAutoReveal (settings st2) = true) /\
      (forall l f, In (SetActiveLeaf l f) new ->
                   sidebarAutoFocus (settings st2) = true) /\
      (sidebarAutoReveal (settings st2) = true ->
       sidebarAutoFocus (settings st2) = false -> new = [RevealLeaf leaf]).
Proof.
  rewrite openFileInSidebar_run. cbn zeta.
  destruct (fst (sessionLeaf host st)) as [leaf|]; [|discriminate].
  intros Hrun. injection Hrun as <-.
  eexists leaf, _. cbn [currentSidebarLeaf awaiting].
  split; [reflexivity|]. split; [reflexivity|].
  intros st2. cbn [resume]. rewrite openFileInSidebar_loaded_run. cbn [snd history].
  eexists. split; [reflexivity|].
  destruct (sidebarAutoReveal (settings st2)), (sidebarAutoFocus (settings st2));
    cbn [app In]; repeat split; intros; try reflexivity; try discriminate;
    try tauto; intuition (try discriminate; try congruence).
Qed.

(** The load itself does not look at [sidebarAutoFocus]: every call of
    [openFileInSidebar] that returns has, as its last call before the
    [await], loaded the file into the tracked pane with [active: true],
    whatever the settings are. *)
Lemma sidebar_load_is_always_active (host : Host) (file : TFile)
    (linkText : string) (state : option EphemeralState) (st : State) :
  fst (openFileInSidebar host file linkText state st) = Return tt ->
  exists leaf asked vs,
    currentSidebarLeaf (snd (openFileInSidebar host file linkText state st)) =
      Some leaf /\
    history (snd (openFileInSidebar host file linkText state st)) =
      history st ++ asked ++ [SetViewState leaf vs] /\
    Forall (fun e => isGetSideLeaf e = true) asked /\
    vs_active vs = true.
Proof.
  rewrite openFileInSidebar_run. cbn zeta.
  assert (Hasked : Forall (fun e => isGetSideLeaf e = true) (snd (sessionLeaf host st))).
  { unfold sessionLeaf, acquisition. destruct (trackedLive host st); [constructor|].
    destruct (sideLeaf host _ _ false); cbn [snd]; repeat constructor. }
  destruct (fst (sessionLeaf host st)) as [leaf|]; [|discriminate].
  intros _. cbn [snd currentSidebarLeaf history].
  eexists leaf, (snd (sessionLeaf host st)), _.
  split; [reflexivity|]. split; [rewrite app_assoc; reflexivity|].
  split; [exact Hasked | reflexivity].
Qed.

(** C9, on the code: with [sidebarAutoReveal] set and [sidebarAutoFocus] not
    (the defaults), a hover over the link [Note#Heading] opened in the
    sidebar loads the note into the pane with [active: true], the switch by
    which the host makes a pane the active one, and then reveals the pane.
    [setActiveLeaf] is not called, but the pane was asked to be the active
    one all the same. *)
Theorem focus_off_load_is_active :
  sidebarAutoReveal DEFAULT_SETTINGS = true /\
  sidebarAutoFocus DEFAULT_SETTINGS = false /\
  history (run (Fake.host true)
             [HoverLink (Fake.hover 7%nat "Note#Heading"); Elapse 300; TimerFires;
              PromiseSettles 0]
             (Fake.start DEFAULT_SETTINGS)) =
  [GetSideLeaf RightSide false;
   SetViewState 200%nat {| vs_type := "markdown"; vs_file := "Note.md";
                           vs_mode := "source"; vs_active := true |};
   RevealLeaf 200%nat].
Proof. repeat split. Qed.

(** ** The sidebar session over a whole run *)

Section SessionInvariant.

Variable host : Host.
Variable l : Leaf.

Lemma call_keeps (e : Event) (st : State) :
  isGetSideLeaf e = false ->
  currentSidebarLeaf st = Some l ->
  sessionKept l st (snd (call e st)).
Proof.
  intros He Hcur. unfold sessionKept, paneRequests.
  cbn [call snd currentSidebarLeaf history].
  rewrite List.filter_app. cbn [List.filter]. rewrite He, app_nil_r.
  split; [exact Hcur | reflexivity].
Qed.

Lemma trackedLive_live (st : State) :
  currentSidebarLeaf st = Some l ->
  leafDisposed host (history st) l = false ->
  trackedLive host st = Some l.
Proof. intros Hcur Hlive. unfold trackedLive. rewrite Hcur, Hlive. reflexivity. Qed.

Lemma openFileInSidebar_keeps (file : TFile) (linkText : string)
    (state : option EphemeralState) (st : State) :
  currentSidebarLeaf st = Some l ->
  leafDisposed host (history st) l = false ->
  sessionKept l st (snd (openFileInSidebar host file linkText state st)).
Proof.
  intros Hcur Hlive. rewrite openFileInSidebar_run. unfold sessionLeaf.
  rewrite (trackedLive_live st Hcur Hlive). cbn [fst snd]. cbn zeta.
  unfold sessionKept, paneRequests. cbn [snd currentSidebarLeaf history].
  rewrite !List.filter_app. cbn [List.filter isGetSideLeaf].
  rewrite !app_nil_r. split; reflexivity.
Qed.

Lemma handleHover_keeps (mode : string) (a : HoverArgs) (st : State) :
  currentSidebarLeaf st = Some l ->
  leafDisposed host (history st) l = false ->
  sessionKept l st (snd (handleHover host mode a st)).
Proof.
  intros Hcur Hlive. unfold handleHover, bind, gets.
  destruct (getFirstLinkpathDest host (history st) _ _) as [file|].
  - destruct (String.eqb mode "sidebar").
    + unfold detached. cbn [snd]. apply openFileInSidebar_keeps; assumption.
    + apply call_keeps; [reflexivity | exact Hcur].
  - apply call_keeps; [reflexivity | exact Hcur].
Qed.

Lemma onLinkHover_keeps (a : HoverArgs) (st : State) :
  currentSidebarLeaf st = Some l ->
  leafDisposed host (history st) l = false ->
  sessionKept l st (snd (onLinkHover host a st)).
Proof.
  intros Hcur Hlive. unfold onLinkHover, bind, gets.
  destruct (String.eqb _ "native").
  - apply call_keeps; [reflexivity | exact Hcur].
  - destruct (0 <? triggerDelay (settings st)).
    + split; [exact Hcur | reflexivity].
    + apply handleHover_keeps; assumption.
Qed.

(** One step keeps the session when the pane is not disposed as the step
    begins. *)
Lemma step_keeps (i : Input) (st : State) :
  currentSidebarLeaf st = Some l ->
  leafDisposed host (history st) l = false ->
  sessionKept l st (step host i st).
Proof.
  intros Hcur Hlive. destruct i as [a|ms| |n|what]; cbn [step].
  - apply onLinkHover_keeps; assumption.
  - split; [exact Hcur | reflexivity].
  - destruct (popEarliest (timers st)) as [[[due task] rest]|];
      [|split; [exact Hcur | reflexivity]].
    destruct (due <=? now st); [|split; [exact Hcur | reflexivity]].
    destruct task as [mode a|leaf eState]; cbn [runTask].
    + apply (handleHover_keeps mode a
               {| settings := settings st;
                  currentSidebarLeaf := currentSidebarLeaf st;
                  history := history st; timers := rest;
                  awaiting := awaiting st; now := now st |}); assumption.
    + unfold applyEphemeral, bind, gets. cbn [history].
      destruct (negb (leafDisposed host (history st) leaf)).
      * apply (call_keeps (SetEphemeralState leaf eState)
                 {| settings := settings st;
                    currentSidebarLeaf := currentSidebarLeaf st;
                    history := history st; timers := rest;
                    awaiting := awaiting st; now := now st |});
          [reflexivity | exact Hcur].
      * split; [exact Hcur | reflexivity].
  - destruct (awaiting st !! n) as [[leaf eState]|];
      [|split; [exact Hcur | reflexivity]].
    cbn [resume]. rewrite openFileInSidebar_loaded_run.
    unfold sessionKept, paneRequests.
    cbn [snd settings currentSidebarLeaf history].
    rewrite !List.filter_app.
    destruct (sidebarAutoReveal (settings st)), (sidebarAutoFocus (settings st));
      cbn [List.filter isGetSideLeaf app]; rewrite ?app_nil_r;
      split; solve [exact Hcur | reflexivity].
  - apply call_keeps; [reflexivity | exact Hcur].
Qed.

(** X1: over a run in which the tracked pane is found not disposed each time
    an input arrives, whatever is hovered and whichever timers and loads
    complete, the plugin keeps that one pane and never asks the host for
    another.  Nothing is asked of the host beyond that: the last input may
    close the pane, and the host may close it in any other run. *)
Theorem run_keeps_session (inputs : list Input) (st : State) :
  currentSidebarLeaf st = Some l ->
  (forall n, (n < length inputs)%nat ->
     leafDisposed host (history (run host (firstn n inputs) st)) l = false) ->
  sessionKept l st (run host inputs st).
Proof.
  revert st. induction inputs as [|i inputs IH]; intros st Hcur Hlive.
  - split; [exact Hcur | reflexivity].
  - change (run host (i :: inputs) st) with (run host inputs (step host i st)).
    assert (Hnow : leafDisposed host (history st) l = false).
    { apply (Hlive 0%nat). cbn [length]. lia. }
    destruct (step_keeps i st Hcur Hnow) as [Hcur' Hreq].
    destruct (IH (step host i st) Hcur') as [Hcur'' Hreq'].
    { intros n Hn. apply (Hlive (S n)). cbn [length]. lia. }
    split; [exact Hcur'' | congruence].
Qed.

End SessionInvariant.

Lemma run_keeps_session_witness :
  sessionKept 200%nat (Fake.tracking 200%nat)
    (run (Fake.host true) previewsThenClosed (Fake.tracking 200%nat)) /\
  leafDisposed (Fake.host true)
    (history (run (Fake.host true) previewsThenClosed (Fake.tracking 200%nat)))
    200%nat = true.
Proof.
  split; [|reflexivity].
  apply (run_keeps_session (Fake.host true) 200%nat previewsThenClosed
           (Fake.tracking 200%nat) eq_refl).
  intros n Hn.
  do 13 (destruct n as [|n]; [reflexivity|]).
  cbn [length previewsThenClosed] in Hn. lia.
Defined.

(** ** Popovers spawned by commands *)

Lemma pinned_popover_stays (closeDelay : Z) (events : list HoverEditor.Pointer)
    (p : HoverEditor.t) :
  HoverEditor.pinned p = true ->
  HoverEditor.closeTimer p = None ->
  HoverEditor.destroyed p = false ->
  HoverEditor.pinned (HoverEditor.pointers closeDelay events p) = true /\
  HoverEditor.closeTimer (HoverEditor.pointers closeDelay events p) = None /\
  HoverEditor.destroyed (HoverEditor.pointers closeDelay events p) = false.
Proof.
  revert p. induction events as [|e events IH]; intros p Hpin Htimer Hlive.
  - repeat split; assumption.
  - cbn [HoverEditor.pointers fold_left].
    apply IH; destruct e; cbn [HoverEditor.pointer];
      unfold HoverEditor.pointerEnter, HoverEditor.pointerLeave,
        HoverEditor.closeTimerExpires;
      rewrite ?Hpin, ?Htimer; cbn; solve [assumption | reflexivity].
Qed.

(** An unpinned popover, for comparison, is gone once the pointer has left
    it and the close timer has run out. *)
Example unpinned_popover_closes :
  HoverEditor.destroyed
    (HoverEditor.pointers 600 [HoverEditor.Leave; HoverEditor.Expire]
       (HoverEditor.attachLeaf (HoverEditor.create false))) = true.
Proof. reflexivity. Qed.

(** [spawnPopover], run symbolically. *)
Lemma spawnPopover_run (host : Host) (initiatingEl : option Element)
    (onShowCallback : option nat) (st : State) :
  spawnPopover host initiatingEl onShowCallback st =
  let parent := activeLeaf host (history st) in
  let popover := length (List.filter isNewHoverEditor (history st)) in
  let spawn el :=
    (Return (attachedLeaf host
               (history st ++ [NewHoverEditor popover (fst <$> parent) el onShowCallback;
                               TogglePin popover true]) popover),
     {| settings := settings st; currentSidebarLeaf := currentSidebarLeaf st;
        history := history st ++ [NewHoverEditor popover (fst <$> parent) el onShowCallback;
                                  TogglePin popover true; AttachLeaf popover];
        timers := timers st; awaiting := awaiting st; now := now st |}) in
  match initiatingEl, parent with
  | Some el, _ => spawn el
  | None, Some (_, containerEl) => spawn containerEl
  | None, None => (TypeError, st)
  end.
Proof.
  destruct st as [s cur tr ts ks t].
  unfold spawnPopover, bind, gets, call, ret, throw.
  cbn [settings currentSidebarLeaf history timers awaiting now].
  destruct initiatingEl as [el|]; [|destruct (activeLeaf host tr) as [[? ?]|]];
    cbn [settings currentSidebarLeaf history timers awaiting now fst snd];
    rewrite <- ?app_assoc; reflexivity.
Qed.

(** C10: a popover made by [spawnPopover] is constructed, then pinned with
    [togglePin(true)], and only then is its leaf attached.  With the popover
    life cycle of the specification: it is pinned while it still has no leaf,
    it is pinned once the leaf is attached, and whatever the pointer and the
    clock do afterwards it stays pinned, never has a close timer pending and
    is not destroyed. *)
Theorem spawned_popover_is_pinned (host : Host) (initiatingEl : option Element)
    (onShowCallback : option nat) (st st' : State) (leaf : Leaf) :
  spawnPopover host initiatingEl onShowCallback st = (Return leaf, st') ->
  exists popover parentLeaf el,
    history st' = history st ++ [NewHoverEditor popover parentLeaf el onShowCallback;
                                 TogglePin popover true; AttachLeaf popover] /\
    forall pinned0,
      (exists q,
         HoverEditor.ofCalls pinned0 popover
           (history st ++ [NewHoverEditor popover parentLeaf el onShowCallback;
                           TogglePin popover true]) = Some q /\
         HoverEditor.pinned q = true /\ HoverEditor.attached q = false) /\
      (exists p,
         HoverEditor.ofCalls pinned0 popover (history st') = Some p /\
         HoverEditor.pinned p = true /\ HoverEditor.attached p = true /\
         forall closeDelay events,
           HoverEditor.pinned (HoverEditor.pointers closeDelay events p) = true /\
           HoverEditor.closeTimer (HoverEditor.pointers closeDelay events p) = None /\
           HoverEditor.destroyed (HoverEditor.pointers closeDelay events p) = false).
Proof.
  rewrite spawnPopover_run. cbn zeta. intros Hrun.
  assert (Hcalls : exists el,
            history st' = history st ++
              [NewHoverEditor (length (List.filter isNewHoverEditor (history st)))
                 (fst <$> activeLeaf host (history st)) el onShowCallback;
               TogglePin (length (List.filter isNewHoverEditor (history st))) true;
               AttachLeaf (length (List.filter isNewHoverEditor (history st)))]).
  { destruct initiatingEl as [el|];
      [|destruct (activeLeaf host (history st)) as [[parentLeaf el]|]; [|discriminate]];
      injection Hrun as _ <-; exists el; reflexivity. }
  destruct Hcalls as [el Hcalls].
  exists (length (List.filter isNewHoverEditor (history st))),
         (fst <$> activeLeaf host (history st)), el.
  split; [exact Hcalls|]. intros pinned0. rewrite Hcalls.
  unfold HoverEditor.ofCalls. rewrite !fold_left_app.
  cbn [fold_left HoverEditor.method]. rewrite Nat.eqb_refl.
  cbn [fmap option_fmap option_map HoverEditor.togglePin HoverEditor.attachLeaf
       HoverEditor.create HoverEditor.pinned HoverEditor.attached].
  split.
  - eexists. split; [reflexivity|]. split; reflexivity.
  - eexists. split; [reflexivity|]. split; [reflexivity|]. split; [reflexivity|].
    intros closeDelay events. apply pinned_popover_stays; reflexivity.
Qed.

Lemma spawned_popover_is_pinned_witness :
  exists popover p,
    HoverEditor.ofCalls false popover
      (history (snd (spawnPopover (Fake.host true) None None
                       (Fake.start DEFAULT_SETTINGS)))) = Some p /\
    HoverEditor.pinned p = true.
Proof.
  destruct (spawned_popover_is_pinned (Fake.host true) None None
              (Fake.start DEFAULT_SETTINGS)
              (snd (spawnPopover (Fake.host true) None None
                      (Fake.start DEFAULT_SETTINGS)))
              1000%nat eq_refl)
    as (popover & parentLeaf & el & _ & Hpop).
  destruct (Hpop false) as [_ (p & Hp & Hpinned & _)].
  exists popover, p. split; assumption.
Defined.

(** * Part III: more properties of the code *)

(** ** Settings: stored modes, the settings tab *)

Lemma isMode_default (k : SettingsKey) :
  isModeKey k = true -> isMode (settingsGet DEFAULT_SETTINGS k) = true.
Proof. destruct k; cbn; intros H; solve [reflexivity | discriminate H]. Qed.

Lemma modeSetting_settingsGet (s : HoverEditorSettings) (c : LinkClassification) :
  JStr (modeSetting s c) = settingsGet s (keyOf c) /\ isModeKey (keyOf c) = true.
Proof. destruct c; split; reflexivity. Qed.

(** The mode of a link is always the value of one of the five mode
    settings: the one of its link type. *)
Lemma linkMode_settingsGet (host : Host) (s : HoverEditorSettings)
    (linkText : string) :
  JStr (linkMode host s linkText) = settingsGet s (keyOf (classify host linkText)).
Proof. rewrite linkMode_classify. apply modeSetting_settingsGet. Qed.

(** X3: when every mode the stored data holds is one of native, floating and
    sidebar (keys may be missing), the mode chosen for a hover is one of the
    three, for every link text. *)
Theorem valid_stored_modes_give_valid_mode (host : Host)
    (data : option StoredSettings) (linkText : string) :
  (forall d k v, data = Some d -> isModeKey k = true ->
                 storedGet d k = Some v -> isMode v = true) ->
  isMode (JStr (linkMode host (loadSettings data) linkText)) = true.
Proof.
  intros Hvalid. rewrite linkMode_settingsGet.
  destruct (modeSetting_settingsGet (loadSettings data) (classify host linkText))
    as [_ Hkey].
  set (k := keyOf (classify host linkText)) in *. clearbody k.
  destruct data as [d|].
  - destruct (storedGet d k) as [v|] eqn:Hstored.
    + assert (Hload : settingsGet (loadSettings (Some d)) k = v).
      { destruct k; try discriminate Hkey;
          cbn [storedGet] in Hstored; unfold loadSettings;
          cbn [settingsGet footnotes headings blocks hoverEmbeds regularLinks];
          match goal with
          | H : _ <$> ?o = Some _ |- _ => destruct o; cbn in H; [|discriminate H]
          end; cbn [assignKey]; congruence. }
      rewrite Hload. exact (Hvalid d k v eq_refl Hkey Hstored).
    + assert (Hload : settingsGet (loadSettings (Some d)) k =
                      settingsGet DEFAULT_SETTINGS k).
      { destruct k; try discriminate Hkey;
          cbn [storedGet] in Hstored; unfold loadSettings;
          cbn [settingsGet footnotes headings blocks hoverEmbeds regularLinks];
          match goal with
          | H : _ <$> ?o = None |- _ => destruct o; cbn in H; [discriminate H|]
          end; reflexivity. }
      rewrite Hload. apply isMode_default, Hkey.
  - apply isMode_default, Hkey.
Qed.

Lemma valid_stored_modes_give_valid_mode_witness :
  isMode (JStr (linkMode (Fake.host true) (loadSettings (Some storedModes))
                  "Note#Heading")) = true /\
  linkMode (Fake.host true) (loadSettings (Some storedModes)) "Note#Heading" =
    "floating".
Proof.
  split; [|reflexivity].
  apply (valid_stored_modes_give_valid_mode (Fake.host true) (Some storedModes)
           "Note#Heading").
  intros d k v Hd Hk Hstored. injection Hd as <-.
  destruct k; try discriminate Hk; cbn in Hstored;
    first [discriminate Hstored | injection Hstored as <-; reflexivity].
Defined.

(** X4: choosing a mode in one of the five dropdowns of the settings tab
    changes the mode of the links of that type to the chosen value and leaves
    the mode of every other link as it was. *)
Theorem mode_change_affects_its_link_type (host : Host)
    (linkType : LinkClassification) (value : string) (s : HoverEditorSettings)
    (linkText : string) :
  (classify host linkText = linkType ->
   linkMode host (SettingTab.onModeChange linkType value s) linkText = value) /\
  (classify host linkText <> linkType ->
   linkMode host (SettingTab.onModeChange linkType value s) linkText =
   linkMode host s linkText).
Proof.
  rewrite !linkMode_classify. split.
  - intros ->. destruct linkType; reflexivity.
  - intros Hne. destruct (classify host linkText), linkType;
      solve [reflexivity | exfalso; apply Hne; reflexivity].
Qed.

Section AllNative.

Variable host : Host.

(** X5: with all five mode settings on native, every hover, whatever its
    link text, is handed to the host's own [onLinkHover] and nothing else
    happens: no timer, no popover, no sidebar. *)
Theorem all_native_every_hover_passes_through (st : State) (a : HoverArgs) :
  (forall k, isModeKey k = true -> settingsGet (settings st) k = JStr "native") ->
  fst (onLinkHover host a st) = Return tt /\
  onlyCalls st (snd (onLinkHover host a st)) [NativeLinkHover a].
Proof.
  intros Hall.
  assert (Hmode : linkMode host (settings st) (linkText a) = "native").
  { pose proof (linkMode_settingsGet host (settings st) (linkText a)) as Heq.
    destruct (modeSetting_settingsGet (settings st) (classify host (linkText a)))
      as [_ Hkey].
    rewrite (Hall _ Hkey) in Heq. congruence. }
  rewrite (onLinkHover_native host a st Hmode). apply call_onlyCalls.
Qed.

End AllNative.

Lemma all_native_every_hover_passes_through_witness :
  onlyCalls (Fake.start (SettingTab.onModeChange Regular "native"
               (SettingTab.onModeChange Heading "native"
                  (SettingTab.onModeChange Block "native"
                     (SettingTab.onModeChange Embed "native" DEFAULT_SETTINGS)))))
    (snd (onLinkHover (Fake.host true) (Fake.hover 7%nat "Note#Heading")
            (Fake.start (SettingTab.onModeChange Regular "native"
               (SettingTab.onModeChange Heading "native"
                  (SettingTab.onModeChange Block "native"
                     (SettingTab.onModeChange Embed "native" DEFAULT_SETTINGS)))))))
    [NativeLinkHover (Fake.hover 7%nat "Note#Heading")].
Proof.
  apply (all_native_every_hover_passes_through (Fake.host true)).
  intros k Hk. destruct k; solve [reflexivity | discriminate Hk].
Defined.

(** X6: whatever [parseCssUnitValue] makes of the text typed, the initial
    width and height set by the settings tab are never empty: text the parser
    rejects (nothing, or an empty string) puts the default size in place, not
    the size that was there before. *)
Theorem initial_size_never_empty (parseCssUnitValue : string -> option string)
    (value : string) (s : HoverEditorSettings) :
  JS.truthy (initialWidth (SettingTab.onInitialWidthChange parseCssUnitValue value s))
    = true /\
  JS.truthy (initialHeight (SettingTab.onInitialHeightChange parseCssUnitValue value s))
    = true /\
  (SettingTab.orDefault (parseCssUnitValue value) EmptyString = EmptyString ->
   initialWidth (SettingTab.onInitialWidthChange parseCssUnitValue value s) = "400px" /\
   initialHeight (SettingTab.onInitialHeightChange parseCssUnitValue value s) = "340px").
Proof.
  unfold SettingTab.onInitialWidthChange, SettingTab.onInitialHeightChange,
    SettingTab.orDefault.
  cbn [set_initialWidth set_initialHeight initialWidth initialHeight DEFAULT_SETTINGS].
  destruct (parseCssUnitValue value) as [[|c v]|]; cbn [JS.truthy];
    (split; [reflexivity|split; [reflexivity|]]);
    intros Hrejected; first [discriminate Hrejected | split; reflexivity].
Qed.

(** ** A failed sidebar preview, and where the other modes go *)

Section Hovers.

Variable host : Host.

(** X7: when [openFileInSidebar] fails for want of a pane, the failure
    stays in its promise.  The call has asked the host for a pane and done
    nothing else (nothing loaded, no timer, nothing awaited, the slot empty);
    and [handleHover], which calls it without [await], returns normally all
    the same, leaving exactly the state the failed call left. *)
Theorem sidebar_failure_stays_in_promise (a : HoverArgs) (st : State)
    (file : TFile) :
  getFirstLinkpathDest host (history st)
    (link_path (parseLinktext host (linkText a))) (path a) = Some file ->
  fst (openFileInSidebar host file (linkText a) (state a) st) = TypeError ->
  fst (handleHover host "sidebar" a st) = Return tt /\
  snd (handleHover host "sidebar" a st) =
    snd (openFileInSidebar host file (linkText a) (state a) st) /\
  exists asked,
    history (snd (handleHover host "sidebar" a st)) = history st ++ asked /\
    Forall (fun e => isGetSideLeaf e = true) asked /\
    asked <> [] /\
    currentSidebarLeaf (snd (handleHover host "sidebar" a st)) = None /\
    timers (snd (handleHover host "sidebar" a st)) = timers st /\
    awaiting (snd (handleHover host "sidebar" a st)) = awaiting st.
Proof.
  intros Hfile Hfails.
  assert (Hhover : handleHover host "sidebar" a st =
                   (Return tt, snd (openFileInSidebar host file (linkText a)
                                      (state a) st))).
  { unfold handleHover, bind, gets. rewrite Hfile. reflexivity. }
  rewrite Hhover. cbn [fst snd]. split; [reflexivity|]. split; [reflexivity|].
  revert Hfails. rewrite openFileInSidebar_run. cbn zeta.
  unfold sessionLeaf, acquisition.
  destruct (trackedLive host st); [discriminate|].
  destruct (sideLeaf host _ _ false); [discriminate|]. cbn [fst snd].
  destruct (sideLeaf host _ _ true); [discriminate|]. intros _.
  cbn [snd history currentSidebarLeaf timers awaiting].
  eexists. split; [reflexivity|].
  split; [repeat constructor|]. split; [discriminate|].
  repeat split.
Qed.

(** X8: when the link resolves to a file, every mode other than sidebar
    (floating, but also a string that is no mode at all) makes [handleHover]
    call the floating [onLinkHover] with the original arguments, and nothing
    else: no pane is asked for, nothing is loaded, no timer is set. *)
Theorem other_modes_open_floating (mode : string) (a : HoverArgs) (st : State)
    (file : TFile) :
  getFirstLinkpathDest host (history st)
    (link_path (parseLinktext host (linkText a))) (path a) = Some file ->
  mode <> "sidebar" ->
  fst (runTask host (HandleHover mode a) st) = Return tt /\
  onlyCalls st (snd (runTask host (HandleHover mode a) st)) [FloatingLinkHover a].
Proof.
  intros Hfile Hmode. cbn [runTask].
  rewrite (handleHover_floating host mode a st file Hfile Hmode).
  apply call_onlyCalls.
Qed.

End Hovers.

Lemma sidebar_failure_stays_in_promise_witness :
  fst (handleHover (Fake.host false) "sidebar" (Fake.hover 7%nat "Note")
         (Fake.start DEFAULT_SETTINGS)) = Return tt /\
  snd (handleHover (Fake.host false) "sidebar" (Fake.hover 7%nat "Note")
         (Fake.start DEFAULT_SETTINGS)) =
  snd (openFileInSidebar (Fake.host false) Fake.note "Note" None
         (Fake.start DEFAULT_SETTINGS)).
Proof.
  destruct (sidebar_failure_stays_in_promise (Fake.host false)
              (Fake.hover 7%nat "Note") (Fake.start DEFAULT_SETTINGS) Fake.note
              eq_refl eq_refl) as (Hreturns & Hstate & _).
  split; [exact Hreturns | exact Hstate].
Defined.

Lemma other_modes_open_floating_witness :
  onlyCalls (Fake.start DEFAULT_SETTINGS)
    (snd (runTask (Fake.host true) (HandleHover "popup" (Fake.hover 7%nat "Note"))
            (Fake.start DEFAULT_SETTINGS)))
    [FloatingLinkHover (Fake.hover 7%nat "Note")].
Proof.
  apply (other_modes_open_floating (Fake.host true) "popup" (Fake.hover 7%nat "Note")
           (Fake.start DEFAULT_SETTINGS) Fake.note eq_refl).
  discriminate.
Defined.

(** Without a sidebar pane the hover still returns; only the two requests
    for a pane are left of it. *)
Example hover_without_pane_returns :
  runTask (Fake.host false) (HandleHover "sidebar" (Fake.hover 7%nat "Note"))
          (Fake.start DEFAULT_SETTINGS) =
  (Return tt,
   {| settings := DEFAULT_SETTINGS; currentSidebarLeaf := None;
      history := [GetSideLeaf RightSide false; GetSideLeaf RightSide true];
      timers := []; awaiting := []; now := 0 |}).
Proof. reflexivity. Qed.

(** ** No hover is counted twice, none is lost *)

Lemma filter_length_Permutation {A : Type} (f : A -> bool) (l l' : list A) :
  Permutation l l' -> length (List.filter f l) = length (List.filter f l').
Proof.
  induction 1 as [|x l l' _ IH|x y l|l l' l'' _ IH1 _ IH2]; cbn [List.filter].
  - reflexivity.
  - destruct (f x); cbn [length]; congruence.
  - destruct (f x), (f y); reflexivity.
  - congruence.
Qed.

Lemma popEarliest_None (ts : list (Z * Task)) : popEarliest ts = None -> ts = [].
Proof.
  destruct ts as [|t rest]; [reflexivity|]. cbn [popEarliest].
  destruct (popEarliest rest) as [[u rest']|]; [|discriminate].
  destruct (fst t <=? fst u)%Z; discriminate.
Qed.

(** Taking the first due timer out loses none and invents none. *)
Lemma popEarliest_Permutation (ts : list (Z * Task)) (t : Z * Task)
    (rest : list (Z * Task)) :
  popEarliest ts = Some (t, rest) -> Permutation ts (t :: rest).
Proof.
  revert t rest. induction ts as [|a r IH]; intros t rest; cbn [popEarliest];
    [discriminate|].
  destruct (popEarliest r) as [[u rest']|] eqn:Hr.
  - specialize (IH u rest' eq_refl).
    destruct (fst a <=? fst u)%Z; intros Heq; injection Heq as <- <-.
    + reflexivity.
    + rewrite IH. apply perm_swap.
  - apply popEarliest_None in Hr. subst r.
    intros Heq. injection Heq as <- <-. reflexivity.
Qed.

(** The timer taken out is one that is due no later than any other. *)
Lemma popEarliest_earliest (ts : list (Z * Task)) (t : Z * Task)
    (rest : list (Z * Task)) :
  popEarliest ts = Some (t, rest) -> forall u, In u ts -> fst t <= fst u.
Proof.
  revert t rest. induction ts as [|a r IH]; intros t rest; cbn [popEarliest];
    [discriminate|].
  destruct (popEarliest r) as [[v rest']|] eqn:Hr.
  - specialize (IH v rest' eq_refl).
    destruct (fst a <=? fst v)%Z eqn:Hle; intros Heq; injection Heq as <- <-;
      intros u [<-|Hin].
    + lia.
    + apply Z.leb_le in Hle. specialize (IH u Hin). lia.
    + apply Z.leb_gt in Hle. lia.
    + apply IH, Hin.
  - apply popEarliest_None in Hr. subst r.
    intros Heq. injection Heq as <- <-. intros u [<-|[]]. lia.
Qed.

Section Conservation.

Variable host : Host.

Lemma sessionLeaf_asks (st : State) :
  List.filter isOutcome (snd (sessionLeaf host st)) = [].
Proof.
  unfold sessionLeaf, acquisition.
  destruct (trackedLive host st); [reflexivity|].
  destruct (sideLeaf host _ _ false); reflexivity.
Qed.

Lemma openFileInSidebar_outcomes (file : TFile) (linkText : string)
    (state : option EphemeralState) (st : State) :
  pendingAll (snd (openFileInSidebar host file linkText state st)) = pendingAll st /\
  (outcomes (snd (openFileInSidebar host file linkText state st)) = S (outcomes st) \/
   (outcomes (snd (openFileInSidebar host file linkText state st)) = outcomes st /\
    fst (sessionLeaf host st) = None)).
Proof.
  rewrite openFileInSidebar_run. cbn zeta. unfold outcomes, pendingAll.
  destruct (fst (sessionLeaf host st)); cbn [snd history timers];
    rewrite !List.filter_app, sessionLeaf_asks, app_nil_r.
  - split; [reflexivity|]. left. cbn [List.filter isOutcome].
    rewrite length_app. cbn [length]. lia.
  - split; [reflexivity|]. right. split; reflexivity.
Qed.

Lemma call_outcomes (e : Event) (st : State) :
  pendingAll (snd (call e st)) = pendingAll st /\
  outcomes (snd (call e st)) = (outcomes st + if isOutcome e then 1 else 0)%nat.
Proof.
  unfold outcomes, pendingAll. cbn [call snd history timers].
  rewrite List.filter_app, length_app. cbn [List.filter].
  destruct (isOutcome e); cbn [length]; split; lia.
Qed.

Lemma handleHover_outcomes (mode : string) (a : HoverArgs) (st : State) :
  pendingAll (snd (handleHover host mode a st)) = pendingAll st /\
  (outcomes (snd (handleHover host mode a st)) = S (outcomes st) \/
   (outcomes (snd (handleHover host mode a st)) = outcomes st /\
    fst (sessionLeaf host st) = None)).
Proof.
  unfold handleHover, bind, gets.
  destruct (getFirstLinkpathDest host (history st) _ _) as [file|].
  - destruct (String.eqb mode "sidebar").
    + unfold detached. cbn [snd]. apply openFileInSidebar_outcomes.
    + destruct (call_outcomes (FloatingLinkHover a) st) as [Hp Ho].
      split; [exact Hp|]. left. rewrite Ho. cbn [isOutcome]. lia.
  - destruct (call_outcomes (NativeLinkHover a) st) as [Hp Ho].
    split; [exact Hp|]. left. rewrite Ho. cbn [isOutcome]. lia.
Qed.

(** One step of the event loop: a hover adds one to the calls made and the
    hovers pending, anything else adds nothing; one is missing exactly when a
    sidebar hover found no pane. *)
Lemma step_outcomes (i : Input) (st : State) :
  (outcomes (step host i st) + pendingAll (step host i st) =
   outcomes st + pendingAll st + if isHoverLink i then 1 else 0)%nat \/
  ((outcomes (step host i st) + pendingAll (step host i st) + 1 =
    outcomes st + pendingAll st + if isHoverLink i then 1 else 0)%nat /\
   exists st0, fst (sessionLeaf host st0) = None).
Proof.
  destruct i as [a|ms| |n|what]; cbn [step isHoverLink].
  - unfold onLinkHover, bind, gets.
    destruct (String.eqb _ "native").
    + destruct (call_outcomes (NativeLinkHover a) st) as [Hp Ho].
      left. rewrite Hp, Ho. cbn [isOutcome]. lia.
    + destruct (0 <? triggerDelay (settings st))%Z.
      * left. unfold outcomes, pendingAll. cbn [setTimeout snd history timers].
        rewrite List.filter_app, length_app. cbn. lia.
      * destruct (handleHover_outcomes
                    (linkMode host (settings st) (linkText a)) a st)
          as [Hp [Ho|[Ho Hnone]]].
        -- left. rewrite Hp, Ho. lia.
        -- right. split; [rewrite Hp, Ho; lia | exists st; exact Hnone].
  - left. unfold outcomes, pendingAll. cbn [history timers]. lia.
  - destruct (popEarliest (timers st)) as [[[due task] rest]|] eqn:Hpop;
      [|left; lia].
    destruct (due <=? now st)%Z; [|left; lia].
    pose proof (filter_length_Permutation isHandleHover _ _
                  (popEarliest_Permutation _ _ _ Hpop)) as Hcount.
    cbn [List.filter] in Hcount.
    set (st_r := {| settings := settings st;
                    currentSidebarLeaf := currentSidebarLeaf st;
                    history := history st; timers := rest;
                    awaiting := awaiting st; now := now st |}).
    assert (Ho_r : outcomes st_r = outcomes st) by reflexivity.
    destruct task as [mode a|leaf eState]; cbn [runTask].
    + assert (Hp_r : S (pendingAll st_r) = pendingAll st).
      { unfold pendingAll. cbn [st_r timers]. rewrite Hcount.
        cbn [isHandleHover snd length]. reflexivity. }
      destruct (handleHover_outcomes mode a st_r) as [Hp [Ho|[Ho Hnone]]].
      * left. rewrite Hp, Ho. lia.
      * right. split; [rewrite Hp, Ho; lia | exists st_r; exact Hnone].
    + assert (Hp_r : pendingAll st_r = pendingAll st).
      { unfold pendingAll. cbn [st_r timers]. rewrite Hcount.
        cbn [isHandleHover snd]. reflexivity. }
      left. unfold applyEphemeral, bind, gets.
      destruct (negb (leafDisposed host (history st_r) leaf)).
      * destruct (call_outcomes (SetEphemeralState leaf eState) st_r) as [Hp Ho].
        rewrite Hp, Ho. cbn [isOutcome]. lia.
      * cbn [ret snd]. lia.
  - destruct (awaiting st !! n) as [[leaf eState]|]; [|left; lia].
    cbn [resume]. rewrite openFileInSidebar_loaded_run. left.
    unfold outcomes, pendingAll. cbn [snd settings history timers].
    rewrite !List.filter_app, !length_app.
    destruct (sidebarAutoReveal (settings st)), (sidebarAutoFocus (settings st));
      cbn; lia.
  - destruct (call_outcomes (HostChanged what) st) as [Hp Ho].
    left. rewrite Hp, Ho. cbn [isOutcome]. lia.
Qed.

(** X9: over any run the calls a hover can end in (the host's own hover, the
    floating hover, a file loaded into the sidebar) and the hovers still
    pending never grow by more than the hovers that came in: no hover is
    acted on twice. *)
Theorem no_hover_counted_twice (inputs : list Input) (st : State) :
  (outcomes (run host inputs st) + pendingAll (run host inputs st)
   <= outcomes st + pendingAll st + hoversIn inputs)%nat.
Proof.
  revert st. induction inputs as [|i inputs IH]; intros st; [cbn; lia|].
  change (run host (i :: inputs) st) with (run host inputs (step host i st)).
  specialize (IH (step host i st)).
  unfold hoversIn in *. cbn [List.filter].
  destruct (step_outcomes i st) as [Hstep|[Hstep _]];
    destruct (isHoverLink i); cbn [length]; lia.
Qed.

(** X10: when the host always has a sidebar pane to give, they grow by
    exactly the hovers that came in: every hover ends in one such call or is
    still pending; none is dropped. *)
Theorem no_hover_lost (inputs : list Input) (st : State) :
  (forall side tr, fst (acquisition host side tr) <> None) ->
  (outcomes (run host inputs st) + pendingAll (run host inputs st)
   = outcomes st + pendingAll st + hoversIn inputs)%nat.
Proof.
  intros Hpane.
  assert (Hsession : forall st0, fst (sessionLeaf host st0) <> None).
  { intros st0. unfold sessionLeaf.
    destruct (trackedLive host st0); [discriminate | apply Hpane]. }
  revert st. induction inputs as [|i inputs IH]; intros st; [cbn; lia|].
  change (run host (i :: inputs) st) with (run host inputs (step host i st)).
  specialize (IH (step host i st)).
  unfold hoversIn in *. cbn [List.filter].
  destruct (step_outcomes i st) as [Hstep|[_ [st0 Hnone]]].
  - destruct (isHoverLink i); cbn [length]; lia.
  - exfalso. exact (Hsession st0 Hnone).
Qed.

End Conservation.

Lemma no_hover_lost_witness :
  (outcomes (run (Fake.host true) Fake.twoPreviews (Fake.start DEFAULT_SETTINGS))
   + pendingAll (run (Fake.host true) Fake.twoPreviews (Fake.start DEFAULT_SETTINGS))
   = 0 + 0 + 2)%nat.
Proof.
  apply (no_hover_lost (Fake.host true) Fake.twoPreviews (Fake.start DEFAULT_SETTINGS)).
  intros [] tr; discriminate.
Defined.

(** Where the right sidebar has no pane, the hover of a regular link is
    lost: it ends in no call and is not pending either. *)
Example hover_lost_without_pane :
  (outcomes (run (Fake.host false)
               [HoverLink (Fake.hover 7%nat "Note"); Elapse 300; TimerFires]
               (Fake.start DEFAULT_SETTINGS))
   + pendingAll (run (Fake.host false)
                   [HoverLink (Fake.hover 7%nat "Note"); Elapse 300; TimerFires]
                   (Fake.start DEFAULT_SETTINGS)) = 0)%nat.
Proof. vm_compute. reflexivity. Qed.

(** ** What the sidebar preview manager never does *)

Lemma eventsOk_app (P : list Event -> Event -> Prop) (pre a b : list Event) :
  eventsOk P pre (a ++ b) <-> eventsOk P pre a /\ eventsOk P (pre ++ a) b.
Proof.
  revert pre. induction a as [|e a IH]; intros pre; cbn [app eventsOk].
  - rewrite app_nil_r. tauto.
  - rewrite IH, <- app_assoc. cbn [app]. tauto.
Qed.

(** Each event of a history that is fine as a whole is fine where it
    stands. *)
Lemma eventsOk_at (P : list Event -> Event -> Prop) (pre post : list Event)
    (e : Event) :
  eventsOk P [] (pre ++ e :: post) -> P pre e.
Proof.
  intros H. apply eventsOk_app in H. destruct H as [_ H].
  cbn [app eventsOk] in H. apply H.
Qed.

Lemma loadedInto_app (l : Leaf) (tr more : list Event) :
  loadedInto l tr -> loadedInto l (tr ++ more).
Proof. intros [vs Hin]. exists vs. apply in_or_app. left. exact Hin. Qed.

Lemma loadedInto_last (l : Leaf) (tr : list Event) (vs : ViewState) :
  loadedInto l (tr ++ [SetViewState l vs]).
Proof. exists vs. apply in_or_app. right. left. reflexivity. Qed.

Section Soundness.

Variable host : Host.
Variable s : HoverEditorSettings.

(** A state reached from a sound one by events that are fine. *)
Lemma sound_extend (st st' : State) (new : list Event) :
  sound host s st ->
  settings st' = s ->
  history st' = history st ++ new ->
  eventsOk (careful host s) (history st) new ->
  (forall due l eState, In (due, ApplyEphemeral l eState) (timers st') ->
     In (due, ApplyEphemeral l eState) (timers st) \/ loadedInto l (history st')) ->
  (forall l eState, In (SidebarLoaded l eState) (awaiting st') ->
     In (SidebarLoaded l eState) (awaiting st) \/ loadedInto l (history st')) ->
  sound host s st'.
Proof.
  intros (Hs & Hpast & Htimers & Hawait) Hs' Hhist Hnew Ht' Ha'.
  split; [exact Hs'|]. split; [|split].
  - rewrite Hhist. apply eventsOk_app. cbn [app]. split; assumption.
  - intros due l eState Hin. destruct (Ht' due l eState Hin) as [Hold|Hnow];
      [|exact Hnow].
    rewrite Hhist. apply loadedInto_app. exact (Htimers due l eState Hold).
  - intros l eState Hin. destruct (Ha' l eState Hin) as [Hold|Hnow];
      [|exact Hnow].
    rewrite Hhist. apply loadedInto_app. exact (Hawait l eState Hold).
Qed.

Lemma call_sound (e : Event) (st : State) :
  sound host s st -> careful host s (history st) e ->
  sound host s (snd (call e st)).
Proof.
  intros Hsound He.
  apply (sound_extend st _ [e] Hsound); cbn [call snd settings history timers awaiting].
  - apply Hsound.
  - reflexivity.
  - cbn [eventsOk]. split; [exact He | exact I].
  - intros due l eState Hin. left. exact Hin.
  - intros l eState Hin. left. exact Hin.
Qed.

Lemma sessionLeaf_careful (st : State) :
  settings st = s ->
  eventsOk (careful host s) (history st) (snd (sessionLeaf host st)).
Proof.
  intros Hs. unfold sessionLeaf, acquisition.
  destruct (trackedLive host st); [exact I|]. rewrite Hs.
  destruct (sideLeaf host _ _ false); cbn [snd eventsOk careful]; tauto.
Qed.

Lemma openFileInSidebar_sound (file : TFile) (linkText : string)
    (state : option EphemeralState) (st : State) :
  sound host s st ->
  sound host s (snd (openFileInSidebar host file linkText state st)).
Proof.
  intros Hsound. pose proof Hsound as (Hs & _).
  rewrite openFileInSidebar_run. cbn zeta.
  destruct (fst (sessionLeaf host st)) as [l|]; cbn [snd].
  - apply (sound_extend st _
             (snd (sessionLeaf host st) ++
              [SetViewState l (loadedView host (history st ++ snd (sessionLeaf host st))
                                 (settings st) file)]) Hsound);
      cbn [settings history timers awaiting].
    + exact Hs.
    + rewrite app_assoc. reflexivity.
    + apply eventsOk_app. split; [apply sessionLeaf_careful, Hs|].
      cbn [eventsOk careful loadedView vs_type vs_active]. tauto.
    + intros due l' eState Hin. left. exact Hin.
    + intros l' eState Hin. apply in_app_or in Hin. destruct Hin as [Hin|[Heq|[]]].
      * left. exact Hin.
      * right. injection Heq as <- _. apply loadedInto_last.
  - apply (sound_extend st _ (snd (sessionLeaf host st)) Hsound);
      cbn [settings history timers awaiting].
    + exact Hs.
    + reflexivity.
    + apply sessionLeaf_careful, Hs.
    + intros due l' eState Hin. left. exact Hin.
    + intros l' eState Hin. left. exact Hin.
Qed.

Lemma handleHover_sound (mode : string) (a : HoverArgs) (st : State) :
  sound host s st -> sound host s (snd (handleHover host mode a st)).
Proof.
  intros Hsound. unfold handleHover, bind, gets.
  destruct (getFirstLinkpathDest host (history st) _ _) as [file|].
  - destruct (String.eqb mode "sidebar").
    + unfold detached. cbn [snd]. apply openFileInSidebar_sound, Hsound.
    + apply call_sound; [exact Hsound | exact I].
  - apply call_sound; [exact Hsound | exact I].
Qed.

Lemma loaded_sound (l : Leaf) (eState : EphemeralState) (st : State) :
  sound host s st -> loadedInto l (history st) ->
  sound host s (snd (openFileInSidebar_loaded l eState st)).
Proof.
  intros Hsound Hloaded. pose proof Hsound as (Hs & _).
  rewrite openFileInSidebar_loaded_run. cbn [snd].
  apply (sound_extend st _
           ((if sidebarAutoReveal (settings st) then [RevealLeaf l] else []) ++
            (if sidebarAutoFocus (settings st) then [SetActiveLeaf l true] else []))
           Hsound);
    cbn [settings history timers awaiting].
  - exact Hs.
  - reflexivity.
  - rewrite Hs. apply eventsOk_app. split.
    + destruct (sidebarAutoReveal s) eqn:Hreveal; cbn [eventsOk careful]; tauto.
    + destruct (sidebarAutoFocus s) eqn:Hfocus; cbn [eventsOk careful]; [|exact I].
      split; [|exact I]. split; [apply loadedInto_app, Hloaded|]. tauto.
  - intros due l' eState' Hin. apply in_app_or in Hin.
    destruct Hin as [Hin|[Heq|[]]]; [left; exact Hin|].
    right. injection Heq as _ <- _. apply loadedInto_app, Hloaded.
  - intros l' eState' Hin. left. exact Hin.
Qed.

Lemma step_sound (i : Input) (st : State) :
  sound host s st -> sound host s (step host i st).
Proof.
  intros Hsound. pose proof Hsound as (Hs & Hpast & Htimers & Hawait).
  destruct i as [a|ms| |n|what]; cbn [step].
  - unfold onLinkHover, bind, gets.
    destruct (String.eqb _ "native").
    + apply call_sound; [exact Hsound | exact I].
    + destruct (0 <? triggerDelay (settings st))%Z.
      * apply (sound_extend st _ [] Hsound);
          cbn [setTimeout snd settings history timers awaiting].
        -- exact Hs.
        -- rewrite app_nil_r. reflexivity.
        -- exact I.
        -- intros due l eState Hin. apply in_app_or in Hin.
           destruct Hin as [Hin|[Heq|[]]]; [left; exact Hin | discriminate Heq].
        -- intros l eState Hin. left. exact Hin.
      * apply handleHover_sound, Hsound.
  - split; [exact Hs|]. split; [exact Hpast|]. split; assumption.
  - destruct (popEarliest (timers st)) as [[[due task] rest]|] eqn:Hpop;
      [|exact Hsound].
    destruct (due <=? now st)%Z; [|exact Hsound].
    pose proof (popEarliest_Permutation _ _ _ Hpop) as Hperm.
    set (st_r := {| settings := settings st;
                    currentSidebarLeaf := currentSidebarLeaf st;
                    history := history st; timers := rest;
                    awaiting := awaiting st; now := now st |}).
    assert (Hsound_r : sound host s st_r).
    { split; [exact Hs|]. split; [exact Hpast|]. split; [|exact Hawait].
      intros due' l eState Hin. apply (Htimers due' l eState).
      apply (Permutation_in _ (Permutation_sym Hperm)). right. exact Hin. }
    destruct task as [mode a|leaf eState]; cbn [runTask].
    + apply handleHover_sound, Hsound_r.
    + assert (Hloaded : loadedInto leaf (history st)).
      { apply (Htimers due leaf eState).
        apply (Permutation_in _ (Permutation_sym Hperm)). left. reflexivity. }
      unfold applyEphemeral, bind, gets.
      destruct (leafDisposed host (history st_r) leaf) eqn:Hdisposed; cbn [negb].
      * exact Hsound_r.
      * apply call_sound; [exact Hsound_r|]. cbn [careful]. split; assumption.
  - destruct (awaiting st !! n) as [[leaf eState]|] eqn:Hn; [|exact Hsound].
    cbn [resume].
    assert (Hloaded : loadedInto leaf (history st)).
    { apply (Hawait leaf eState). apply list_elem_of_In.
      apply list_elem_of_lookup. exists n. exact Hn. }
    apply (loaded_sound leaf eState
             {| settings := settings st;
                currentSidebarLeaf := currentSidebarLeaf st;
                history := history st; timers := timers st;
                awaiting := delete n (awaiting st); now := now st |});
      [|exact Hloaded].
    split; [exact Hs|]. split; [exact Hpast|]. split; [exact Htimers|].
    intros l eState' Hin. apply (Hawait l eState').
    apply list_elem_of_In. apply list_elem_of_In in Hin.
    exact (list_elem_of_delete_inv _ _ _ Hin).
  - apply call_sound; [exact Hsound | exact I].
Qed.

Lemma run_sound (inputs : list Input) (st : State) :
  sound host s st -> sound host s (run host inputs st).
Proof.
  revert st. induction inputs as [|i inputs IH]; intros st Hsound; [exact Hsound|].
  change (run host (i :: inputs) st) with (run host inputs (step host i st)).
  apply IH, step_sound, Hsound.
Qed.

End Soundness.

Lemma fresh_sound (host : Host) (st : State) :
  fresh st -> sound host (settings st) st.
Proof.
  intros (Hh & Ht & Ha). split; [reflexivity|]. rewrite Hh, Ht, Ha.
  split; [exact I|]. split; intros; contradiction.
Qed.

(** Every event of a run from a fresh plugin is a careful one. *)
Lemma run_careful (host : Host) (inputs : list Input) (st : State)
    (pre post : list Event) (e : Event) :
  fresh st ->
  history (run host inputs st) = pre ++ e :: post ->
  careful host (settings st) pre e.
Proof.
  intros Hfresh Hhist.
  destruct (run_sound host (settings st) inputs st (fresh_sound host st Hfresh))
    as (_ & Hpast & _).
  rewrite Hhist in Hpast. exact (eventsOk_at _ _ _ _ Hpast).
Qed.

(** X11: in any run of a freshly loaded plugin, an ephemeral state is only
    ever applied to a pane that is not disposed at that moment and into which
    a file was loaded before. *)
Theorem scroll_only_live_loaded_panes (host : Host) (inputs : list Input)
    (st : State) (pre post : list Event) (l : Leaf) (eState : EphemeralState) :
  fresh st ->
  history (run host inputs st) = pre ++ SetEphemeralState l eState :: post ->
  leafDisposed host pre l = false /\ loadedInto l pre.
Proof. intros Hfresh Hhist. exact (run_careful host inputs st _ _ _ Hfresh Hhist). Qed.



Lemma fresh_start (s : HoverEditorSettings) : fresh (Fake.start s).
Proof. repeat split. Qed.

Lemma scroll_only_live_loaded_panes_witness :
  leafDisposed (Fake.host true)
    [GetSideLeaf RightSide false; SetViewState 200%nat Fake.noteView;
     RevealLeaf 200%nat] 200%nat = false /\
  loadedInto 200%nat
    [GetSideLeaf RightSide false; SetViewState 200%nat Fake.noteView;
     RevealLeaf 200%nat].
Proof.
  refine (scroll_only_live_loaded_panes (Fake.host true) Fake.twoPreviews
            (Fake.start DEFAULT_SETTINGS)
            [GetSideLeaf RightSide false; SetViewState 200%nat Fake.noteView;
             RevealLeaf 200%nat]
            [SetViewState 200%nat Fake.noteView] 200%nat _
            (fresh_start DEFAULT_SETTINGS) _).
  reflexivity.
Defined.



(** ** The ephemeral state: what is left alone *)

(** X14: [buildEphemeralState] only ever writes the four properties
    [subpath], [line], [startLoc] and [endLoc].  Every property of the
    incoming state other than the three locations is carried over unchanged,
    its [subpath] included; a property other than the four is in the result
    exactly when the incoming state has it; and when the anchor does not
    resolve, the three locations are those of the incoming state too. *)
Theorem buildEphemeralState_frame (host : Host) (tr : list Event) (file : TFile)
    (linktext : string) (oldState : option EphemeralState) (k : string) :
  (k <> "line" -> k <> "startLoc" -> k <> "endLoc" ->
   forall o v, oldState = Some o -> o !! k = Some v ->
   buildEphemeralState host tr file linktext oldState !! k = Some v) /\
  (k <> "subpath" ->
   resolvedAnchor host tr file linktext = None \/
   (k <> "line" /\ k <> "startLoc" /\ k <> "endLoc") ->
   buildEphemeralState host tr file linktext oldState !! k =
   oldState ≫= (fun o => o !! k)) /\
  is_Some (buildEphemeralState host tr file linktext oldState !! "subpath").
Proof.
  rewrite buildEphemeralState_unfold. cbn zeta.
  set (v0 := if JS.truthy (anchorOf linktext) then _ else _). clearbody v0.
  assert (Hkeep : forall o v, oldState = Some o -> o !! k = Some v ->
            spread {[ "subpath" := v0 ]} oldState !! k = Some v).
  { intros o v -> Ho. cbn [spread]. apply lookup_union_Some_l, Ho. }
  assert (Hrest : k <> "subpath" ->
            spread {[ "subpath" := v0 ]} oldState !! k = oldState ≫= (fun o => o !! k)).
  { intros Hk. destruct oldState as [o|]; cbn [spread mbind option_bind].
    - rewrite lookup_union_l; [reflexivity|].
      apply lookup_singleton_ne. congruence.
    - apply lookup_singleton_ne. congruence. }
  split; [|split].
  - intros Hline Hstart Hend o v Hold Ho.
    destruct (resolvedAnchor host tr file linktext).
    + rewrite !lookup_insert_ne by congruence. exact (Hkeep o v Hold Ho).
    + exact (Hkeep o v Hold Ho).
  - intros Hk Hcase.
    destruct (resolvedAnchor host tr file linktext).
    + destruct Hcase as [Hnone|(Hline & Hstart & Hend)]; [discriminate Hnone|].
      rewrite !lookup_insert_ne by congruence. exact (Hrest Hk).
    + exact (Hrest Hk).
  - assert (Hsub : is_Some (spread {[ "subpath" := v0 ]} oldState !! "subpath")).
    { destruct oldState as [o|]; cbn [spread].
      - destruct (o !! "subpath") as [w|] eqn:Ho.
        + exists w. apply lookup_union_Some_l, Ho.
        + exists v0. rewrite lookup_union_r by exact Ho. apply lookup_singleton_eq.
      - exists v0. apply lookup_singleton_eq. }
    destruct (resolvedAnchor host tr file linktext); [|exact Hsub].
    rewrite !lookup_insert_ne by discriminate. exact Hsub.
Qed.

(** ** Popovers: [spawnPopover] with nothing to anchor to *)

(** X16: without an initiating element and without an active leaf in the
    workspace, [spawnPopover] raises a [TypeError] (it reads [containerEl] of
    no leaf) before it constructs anything: no popover is made, none pinned,
    no leaf attached, and the plugin is as it was.  So a call that made a
    popover had an element given or found an active leaf. *)
Theorem spawnPopover_raises_without_anchor (host : Host)
    (onShowCallback : option nat) (st : State) :
  activeLeaf host (history st) = None ->
  spawnPopover host None onShowCallback st = (TypeError, st) /\
  forall initiatingEl,
    history (snd (spawnPopover host initiatingEl onShowCallback st)) <> history st ->
    initiatingEl <> None.
Proof.
  intros Hnone. split.
  - rewrite spawnPopover_run. cbn zeta. rewrite Hnone. reflexivity.
  - intros initiatingEl Hmade ->. apply Hmade.
    rewrite spawnPopover_run. cbn zeta. rewrite Hnone. reflexivity.
Qed.

Lemma spawnPopover_raises_without_anchor_witness :
  spawnPopover hostWithoutActiveLeaf None (Some 0%nat) (Fake.start DEFAULT_SETTINGS) =
  (TypeError, Fake.start DEFAULT_SETTINGS).
Proof.
  exact (proj1 (spawnPopover_raises_without_anchor hostWithoutActiveLeaf
                  (Some 0%nat) (Fake.start DEFAULT_SETTINGS) eq_refl)).
Defined.

(** ** Identifiers *)

Lemma toInt32_small (q : Q) :
  (0 <= q)%Q -> (q < 16)%Q ->
  (0 <= JSNum.toInt32 q < 16)%Z /\ JSNum.toInt32 q = Qfloor q.
Proof.
  intros Hlo Hhi. unfold JSNum.toInt32, JSNum.truncate.
  assert (Hle : Qle_bool 0 q = true) by (apply Qle_bool_iff; exact Hlo).
  rewrite Hle.
  assert (H0 : (0 <= Qfloor q)%Z).
  { change 0%Z with (Qfloor 0). apply Qfloor_resp_le. exact Hlo. }
  assert (H16 : (Qfloor q < 16)%Z).
  { rewrite Zlt_Qlt. apply Qle_lt_trans with q; [apply Qfloor_le | exact Hhi]. }
  assert (Hmod : ((Qfloor q + 2 ^ 31) mod 2 ^ 32 = Qfloor q + 2 ^ 31)%Z).
  { apply Z.mod_small. lia. }
  rewrite Hmod. lia.
Qed.

Lemma toString16_digit (d : Z) :
  (0 <= d < 16)%Z ->
  exists c, JSNum.toString16 d = String c EmptyString /\ isHexDigit c = true.
Proof.
  intros Hd. exists (JSNum.hexDigit d).
  assert (Hcases : d = 0 \/ d = 1 \/ d = 2 \/ d = 3 \/ d = 4 \/ d = 5 \/ d = 6 \/
                   d = 7 \/ d = 8 \/ d = 9 \/ d = 10 \/ d = 11 \/ d = 12 \/
                   d = 13 \/ d = 14 \/ d = 15) by lia.
  repeat (destruct Hcases as [->|Hcases]; [split; reflexivity|]).
  subst d. split; reflexivity.
Qed.

Lemma genIdLoop_hexChars (random : nat -> Q) (count n : nat) (chars : list string) :
  (forall i, 0 <= random i /\ random i < 1)%Q ->
  hexChars chars ->
  hexChars (genIdLoop random n count chars) /\
  length (genIdLoop random n count chars) = (length chars + count)%nat.
Proof.
  intros Hrandom. revert n chars.
  induction count as [|count IH]; intros n chars Hchars; cbn [genIdLoop].
  - split; [exact Hchars | lia].
  - destruct (Hrandom n) as [Hlo Hhi].
    assert (Hlo16 : (0 <= 16 * random n)%Q).
    { apply Qmult_le_0_compat; [discriminate | exact Hlo]. }
    assert (Hhi16 : (16 * random n < 16)%Q).
    { change (16 * random n < 16 * 1)%Q.
      apply Qmult_lt_l; [reflexivity | exact Hhi]. }
    destruct (toInt32_small _ Hlo16 Hhi16) as [Hd _].
    destruct (IH (S n) (chars ++ [JSNum.toString16 (JSNum.toInt32 (16 * random n))]))
      as [Hall Hlen].
    { apply Forall_app. split; [exact Hchars|].
      constructor; [|constructor]. destruct (toString16_digit _ Hd) as (c & Hc & Hhex).
      exists c. split; assumption. }
    split; [exact Hall|]. rewrite Hlen, length_app. cbn [length]. lia.
Qed.

Lemma concat_hexChars (chars : list string) :
  hexChars chars ->
  String.length (String.concat EmptyString chars) = length chars /\
  allHexDigits (String.concat EmptyString chars) = true.
Proof.
  induction 1 as [|x chars (c & -> & Hc) Hchars [IHlen IHall]].
  - split; reflexivity.
  - destruct chars as [|y chars].
    + change (String.concat EmptyString [String c EmptyString])
        with (String c EmptyString).
      unfold allHexDigits. cbn [String.length list_ascii_of_string forallb].
      rewrite Hc. split; reflexivity.
    + change (String.concat EmptyString (String c EmptyString :: y :: chars))
        with (String c (String.concat EmptyString (y :: chars))).
      unfold allHexDigits in *. cbn [String.length list_ascii_of_string forallb].
      rewrite Hc, IHall, IHlen. split; reflexivity.
Qed.

(** X15: with [Math.random()] answering numbers from 0 up to, not
    including, 1, [genId(size)] is a string of as many characters as there
    are natural numbers below [size], each one of the sixteen hexadecimal
    digits in lower case. *)
Theorem genId_hex_of_length (random : nat -> Q) (size : Q) :
  (forall i, 0 <= random i /\ random i < 1)%Q ->
  String.length (genId random size) = Z.to_nat (Qceiling size) /\
  allHexDigits (genId random size) = true.
Proof.
  intros Hrandom. unfold genId.
  destruct (genIdLoop_hexChars random (Z.to_nat (Qceiling size)) 0 [] Hrandom)
    as [Hall Hlen]; [constructor|].
  destruct (concat_hexChars _ Hall) as [Hlength Hhex].
  rewrite Hlength, Hlen. split; [reflexivity | exact Hhex].
Qed.

Lemma genId_hex_of_length_witness :
  String.length (genId (fun i => Z.of_nat (i mod 7) # 7)%Q (5 # 2)) = 3%nat /\
  allHexDigits (genId (fun i => Z.of_nat (i mod 7) # 7)%Q (5 # 2)) = true.
Proof.
  apply (genId_hex_of_length (fun i => Z.of_nat (i mod 7) # 7)%Q (5 # 2)).
  intros i. pose proof (Nat.mod_upper_bound i 7). split.
  - unfold Qle. cbn [Qnum Qden]. lia.
  - unfold Qlt. cbn [Qnum Qden]. lia.
Defined.

(** Three rounds for the size two and a half. *)
Example genId_sample :
  genId (fun i => Z.of_nat (i mod 7) # 7)%Q (5 # 2) = "024".
Proof. reflexivity. Qed.

(** ** The file menu *)

(** X17: the file menu gets the item [Open in Hover Editor] exactly for a
    file (not a folder) when the menu comes with no leaf; with a leaf it is
    never added, whether or not the leaf is in a popover: what
    [HoverEditor.forLeaf] answers makes no difference. *)
Theorem file_menu_item_only_without_leaf (forLeaf : Leaf -> option nat)
    (file : TAbstractFile) (leaf : option Leaf) (f : TFile) :
  fileMenuItem forLeaf file leaf = Some f <-> file = AFile f /\ leaf = None.
Proof.
  unfold fileMenuItem. destruct file as [g|path].
  - destruct leaf as [l|].
    + rewrite (bool_decide_eq_true_2 (is_Some (Some l))) by (eexists; reflexivity).
      rewrite andb_false_r. split; [discriminate|intros [_ H]; discriminate H].
    + rewrite !(bool_decide_eq_false_2 (is_Some None)) by (intros [x Hx]; discriminate Hx).
      cbn [negb andb]. split.
      * intros H. injection H as ->. split; reflexivity.
      * intros [H _]. injection H as ->. reflexivity.
  - split; [discriminate|intros [H _]; discriminate H].
Qed.
